(** * omega_format: perception objects, their classification, settings.

    Shallow embedding of
      - src/omega_format/perception/object.py  (ObjectClassification, Object)
      - src/omega_format/settings.py           (Settings, SettingsGetter)
    together with the abstract hierarchical store (h5py groups) and the
    ValVar leaf type, which the spec treats as external collaborators.

    Modelling choices.
      - A float is a rational [Q]: the store keeps values exactly, so the
        "modulo floating-point precision" of the spec is equality here.
      - A member of an [IntEnum] (of PerceptionTypes) is its integer code.
      - An integer attribute of the store is the numpy scalar h5py keeps:
        int64 or uint64 as [np.asarray] types the Python int, [TypeError]
        when neither fits.
      - A pydantic instance's [__dict__] (what [vars(self)] returns) is an
        association list from attribute names to Python values, in field
        declaration order.
      - Python's [assert] raises [AssertionError]; a failing pydantic
        validator surfaces as [ValidationError]; [warnings.warn] is an
        output of the computation. *)

From Stdlib Require Import Ascii String List ZArith QArith Bool Lia.
Import ListNotations.
Open Scope string_scope.
Open Scope Z_scope.
Set Warnings "-register-all".

(** ** Python runtime: errors, warnings, results *)

Inductive err :=
| AssertionError
| ValidationError
| TypeError
| AttributeError (name : string)
| KeyError (name : string)
| ValueError (name : string).

Inductive warning :=
| LengthMismatchWarning.   (* the [warn(...)] of check_array_length *)

Inductive result (A : Type) :=
| Ok (a : A)
| Err (e : err).
Arguments Ok {A} a.
Arguments Err {A} e.

(** A computation that may raise and that emits warnings on the way. *)
Definition M (A : Type) : Type := (result A * list warning)%type.

Definition ret {A} (a : A) : M A := (Ok a, []).
Definition raise {A} (e : err) : M A := (Err e, []).
Definition warn (w : warning) : M unit := (Ok tt, [w]).

Definition bind {A B} (m : M A) (f : A -> M B) : M B :=
  let (r, ws) := m in
  match r with
  | Ok a => let (r', ws') := f a in (r', app ws ws')
  | Err e => (Err e, ws)
  end.

Notation "x <- m ;; k" := (bind m (fun x => k))
  (at level 61, m at next level, right associativity).
Notation "m ;;; k" := (bind m (fun _ : unit => k))
  (at level 61, right associativity).

(** ** Python slicing [l[lo:hi]] (step 1), numpy arrays and lists alike *)

Definition norm_index (n i : Z) : Z :=
  if i <? 0 then Z.max 0 (n + i) else Z.min i n.

Definition py_slice {A} (l : list A) (lo hi : Z) : list A :=
  let n := Z.of_nat (List.length l) in
  let lo' := norm_index n lo in
  let hi' := norm_index n hi in
  firstn (Z.to_nat (hi' - lo')) (skipn (Z.to_nat lo') l).

(** ** Association lists: an instance's [__dict__] *)

Fixpoint lookup {V} (k : string) (d : list (string * V)) : option V :=
  match d with
  | [] => None
  | (k', v) :: d' => if String.eqb k k' then Some v else lookup k d'
  end.

(** [d[k] = v]: an existing key keeps its position, a new one is appended. *)
Fixpoint dict_set {V} (k : string) (v : V) (d : list (string * V)) :
  list (string * V) :=
  match d with
  | [] => [(k, v)]
  | (k', v') :: d' =>
      if String.eqb k k' then (k, v) :: d' else (k', v') :: dict_set k v d'
  end.

(** Lifting a plain result into [M]. *)
Definition lift {A} (r : result A) : M A := (r, []).

(** ** Python values of the settings object *)

Inductive pyobj :=
| PyNone
| PyBool (b : bool)
| PyInt (z : Z)
| PyStr (s : string)
| PyDict (d : list (string * pyobj)).

(** ** Settings (settings.py) *)

Module Settings.

(** The instance dictionary of a [Settings] object. *)
Definition t := list (string * pyobj).

(** The declared fields of [class Settings(BaseSettings)]. *)
Definition fields : list string :=
  ["ALLOW_MISSING_TL_GROUPS"; "ALLOW_INCOMPLETE_META_DATA"].

(** [Settings()] with no environment overrides: the declared defaults. *)
Definition default : t :=
  [("ALLOW_MISSING_TL_GROUPS", PyBool true);
   ("ALLOW_INCOMPLETE_META_DATA", PyBool true)].

(** Attribute read: a name that is not in the instance dictionary raises
    [AttributeError]. *)
Definition getattr (s : t) (k : string) : result pyobj :=
  match lookup k s with
  | Some v => Ok v
  | None => Err (AttributeError k)
  end.

(** pydantic's [DUNDER_ATTRIBUTES]. *)
Definition dunder_attributes : list string :=
  ["__annotations__"; "__classcell__"; "__doc__"; "__module__";
   "__orig_bases__"; "__orig_class__"; "__qualname__"].

(** pydantic's [BaseModel.__setattr__]: a name in [DUNDER_ATTRIBUTES] (or
    in [__private_attributes__], which [Settings] leaves empty) goes to
    [object.__setattr__], which stores it in the instance dictionary;
    otherwise [BaseSettings] forbids extra attributes, so a name that is not
    a declared field raises [ValueError]; assignment is not validated. *)
Definition setattr (s : t) (k : string) (v : pyobj) : result t :=
  if existsb (String.eqb k) dunder_attributes then Ok (dict_set k v s)
  else if existsb (String.eqb k) fields then Ok (dict_set k v s)
  else Err (ValueError k).

End Settings.

Module SettingsGetter.

(** [SettingsGetter.set] with keyword arguments [kwargs]:
      [for k, v in kwargs.items(): if v is not None: setattr(self.settings, k, v)]
    Returns the settings afterwards and the exception raised, if any. *)
Fixpoint set (settings : Settings.t) (kwargs : list (string * pyobj)) :
  Settings.t * option err :=
  match kwargs with
  | [] => (settings, None)
  | (k, v) :: kw =>
      match v with
      | PyNone => set settings kw
      | _ =>
          match Settings.setattr settings k v with
          | Ok s' => set s' kw
          | Err e => (settings, Some e)
          end
      end
  end.

(** [get_settings().hdf5_compress_args], read before every dataset write. *)
Definition hdf5_compress_args (settings : Settings.t) : M pyobj :=
  lift (Settings.getattr settings "hdf5_compress_args").

End SettingsGetter.

(** ** The hierarchical store (h5py [Group]) *)

Module Store.

(** A dataset keeps the semantic element type it was written with. *)
Inductive dataset :=
| DFloat (a : list Q)   (* float array *)
| DEnum (l : list Z).   (* enum-coded array *)

(** An integer attribute as h5py stores it: a numpy scalar of type int64 or
    uint64, holding the integer it was created from. *)
Inductive attr :=
| AInt64 (z : Z)
| AUInt64 (z : Z).

(** A group: its full path name ([group.name]), its integer attributes, its
    datasets and its child groups, each under its key. *)
Inductive group :=
| Group (name : string) (attrs : list (string * attr))
        (datasets : list (string * dataset)) (children : list (string * group)).

Definition name (g : group) : string :=
  match g with Group n _ _ _ => n end.

(** A fresh, empty node at a path. *)
Definition fresh (path : string) : group := Group path [] [] [].

Definition child_path (p k : string) : string :=
  if String.eqb p "/" then "/" ++ k else p ++ "/" ++ k.

Definition has_key (g : group) (k : string) : bool :=
  match g with
  | Group _ _ ds ch =>
      match lookup k ds, lookup k ch with
      | None, None => false
      | _, _ => true
      end
  end.

(** [np.asarray(z)] for a Python int [z]: an int64 array if [z] fits in
    int64, else a uint64 array if it fits there, else an object array,
    which has no HDF5 equivalent ([None]). *)
Definition np_int (z : Z) : option attr :=
  if (- 2 ^ 63 <=? z) && (z <? 2 ^ 63) then Some (AInt64 z)
  else if (2 ^ 63 <=? z) && (z <? 2 ^ 64) then Some (AUInt64 z)
  else None.

(** [group.attrs.create(k, data=z)]: creates or overwrites; an integer
    without a native HDF5 type raises [TypeError]. *)
Definition attrs_create (g : group) (k : string) (z : Z) : M group :=
  match np_int z with
  | Some a => match g with Group n atts ds ch => ret (Group n (dict_set k a atts) ds ch) end
  | None => raise TypeError
  end.

(** [group.create_dataset(k, data=d, **args)]: an existing name raises;
    [args] must be a mapping; storage parameters do not change contents. *)
Definition create_dataset (g : group) (k : string) (d : dataset)
    (args : pyobj) : M group :=
  match args with
  | PyDict _ =>
      if has_key g k then raise (ValueError k)
      else match g with Group n a ds ch => ret (Group n a (app ds [(k, d)]) ch) end
  | _ => raise TypeError
  end.

(** [fill(group.create_group(k))]: the child is created empty, filled, and
    hangs under [k]. *)
Definition create_group (g : group) (k : string) (fill : group -> M group) :
  M group :=
  if has_key g k then raise (ValueError k)
  else c <- fill (fresh (child_path (name g) k)) ;;
       match g with Group n a ds ch => ret (Group n a ds (app ch [(k, c)])) end.

(** [group[k]] for a child group. *)
Definition get_group (g : group) (k : string) : M group :=
  match g with
  | Group _ _ _ ch =>
      match lookup k ch with Some c => ret c | None => raise (KeyError k) end
  end.

(** [group[k][()]] for a dataset. *)
Definition get_dataset (g : group) (k : string) : M dataset :=
  match g with
  | Group _ _ ds _ =>
      match lookup k ds with Some d => ret d | None => raise (KeyError k) end
  end.

(** [group.attrs[k]]: the stored numpy scalar. *)
Definition get_attr (g : group) (k : string) : M attr :=
  match g with
  | Group _ a _ _ =>
      match lookup k a with Some z => ret z | None => raise (KeyError k) end
  end.

(** [x.astype(int)] on a numpy integer scalar: a cast to int64, which
    wraps a uint64 value modulo [2 ^ 64]. *)
Definition astype_int (x : attr) : Z :=
  match x with
  | AInt64 z => z
  | AUInt64 z => if z <? 2 ^ 63 then z else z - 2 ^ 64
  end.

(** A dataset read as a float array. *)
Definition get_floats (g : group) (k : string) : M (list Q) :=
  d <- get_dataset g k ;;
  match d with
  | DFloat a => ret a
  | DEnum l => ret (map inject_Z l)
  end.

(** A dataset read as enum codes ([list(map(Enum, ds[()].tolist()))]). *)
Definition get_codes (g : group) (k : string) : M (list Z) :=
  d <- get_dataset g k ;;
  match d with
  | DEnum l => ret l
  | DFloat _ => raise TypeError
  end.

Fixpoint has_slash (s : string) : bool :=
  match s with
  | EmptyString => false
  | String c s' => Ascii.eqb c "/"%char || has_slash s'
  end.

(** [path.rpartition('/')[-1]]: what follows the last slash. *)
Fixpoint last_component (s : string) : string :=
  match s with
  | EmptyString => EmptyString
  | String c s' =>
      if has_slash s' then last_component s'
      else if Ascii.eqb c "/"%char then s' else s
  end.

End Store.

(** One sequence of [ObjectClassification.cut_to_timespan] (object.py,
    lines 48-51 and 53-56):
      [if len(x) > 0: assert len(x) > birth; assert len(x) > death;
                      x = x[birth:death + 1]]
    [None] is a failed assertion (the sequence is then left as it was). *)
Definition cut_series {A} (l : list A) (birth death : Z) : option (list A) :=
  if 0 <? Z.of_nat (List.length l) then
    if negb (birth <? Z.of_nat (List.length l)) then None
    else if negb (death <? Z.of_nat (List.length l)) then None
    else Some (py_slice l birth (death + 1))
  else Some l.

(** ** ValVar *)

(** Modelled from the spec: [ValVar] (src/omega_format/perception/valvar.py
    is not among the sources).  The spec describes it as a value/validity
    pair of time series "implementing the same load/save/cut contract" as
    ObjectClassification: [cut_to_timespan(birth, death)] keeps the closed
    index range [birth, death] of each non-empty series; its store layout is
    two float datasets, [val] and [var]; no validation rule is specified. *)
Module ValVar.

Record t := mk { val : list Q; var : list Q }.

Definition default : t := mk [] [].

Definition cut_to_timespan (self : t) (birth death : Z) : t * option err :=
  if negb (0 <=? birth) then (self, Some AssertionError)
  else if negb (birth <=? death) then (self, Some AssertionError)
  else match cut_series (val self) birth death with
       | None => (self, Some AssertionError)
       | Some v =>
           let self1 := mk v (var self) in
           match cut_series (var self1) birth death with
           | None => (self1, Some AssertionError)
           | Some w => (mk v w, None)
           end
       end.

Definition to_hdf5 (cfg : Settings.t) (self : t) (g : Store.group) :
  M Store.group :=
  args <- SettingsGetter.hdf5_compress_args cfg ;;
  g <- Store.create_dataset g "val" (Store.DFloat (val self)) args ;;
  args <- SettingsGetter.hdf5_compress_args cfg ;;
  Store.create_dataset g "var" (Store.DFloat (var self)) args.

Definition from_hdf5 (g : Store.group) (validate : bool) : M t :=
  v <- Store.get_floats g "val" ;;
  w <- Store.get_floats g "var" ;;
  ret (mk v w).

End ValVar.

(** ** ObjectClassification (object.py, lines 13-56) *)

Module ObjectClassification.

(** [val : List[PerceptionTypes.ObjectClassification]],
    [confidence : np.ndarray] *)
Record t := mk { val : list Z; confidence : list Q }.

Definition default : t := mk [] [].

Definition in_unit (x : Q) : bool := Qle_bool 0 x && Qle_bool x 1.

(** [assert v.size==0 or np.all(np.logical_and(0<=v, v<=1))] *)
Definition check_confidence_values (v : list Q) : result (list Q) :=
  if (List.length v =? 0)%nat || forallb in_unit v then Ok v
  else Err AssertionError.

(** [if len(v) != len(values.get('val')): warn(...)]; never fails. *)
Definition check_array_length (v : list Q) (val : list Z) : M (list Q) :=
  (if (List.length v =? List.length val)%nat then ret tt
   else warn LengthMismatchWarning) ;;;
  ret v.

(** Validated construction [ObjectClassification(val=..., confidence=...)]:
    the two validators of [confidence] run in order; a failing one stops
    the field's validation and pydantic raises [ValidationError]. *)
Definition new (val : list Z) (confidence : list Q) : M t :=
  match check_confidence_values confidence with
  | Err _ => raise ValidationError
  | Ok v => v' <- check_array_length v val ;; ret (mk val v')
  end.

(** [ObjectClassification.construct(...)]: no validation. *)
Definition construct (val : list Z) (confidence : list Q) : t :=
  mk val confidence.

(** [cut_to_timespan]: the two sequences are cut one after the other; an
    assertion failing on [confidence] leaves [val] already cut. *)
Definition cut_to_timespan (self : t) (birth death : Z) : t * option err :=
  if negb (0 <=? birth) then (self, Some AssertionError)
  else if negb (birth <=? death) then (self, Some AssertionError)
  else match cut_series (val self) birth death with
       | None => (self, Some AssertionError)
       | Some v =>
           let self1 := mk v (confidence self) in
           match cut_series (confidence self1) birth death with
           | None => (self1, Some AssertionError)
           | Some c => (mk v c, None)
           end
       end.

(** [from_hdf5]: [cls] validates, [cls.construct] does not. *)
Definition from_hdf5 (g : Store.group) (validate : bool) : M t :=
  v <- Store.get_codes g "val" ;;
  c <- Store.get_floats g "confidence" ;;
  if validate then new v c else ret (construct v c).

Definition to_hdf5 (cfg : Settings.t) (self : t) (g : Store.group) :
  M Store.group :=
  args <- SettingsGetter.hdf5_compress_args cfg ;;
  g <- Store.create_dataset g "val" (Store.DEnum (val self)) args ;;
  args <- SettingsGetter.hdf5_compress_args cfg ;;
  Store.create_dataset g "confidence" (Store.DFloat (confidence self)) args.

End ObjectClassification.

(** ** Attribute values of an [Object] instance *)

Inductive pyval :=
| PStr (s : string)
| PInt (z : Z)
| PArray (a : list Q)                       (* np.ndarray *)
| PList (l : list Z)                        (* list of enum members *)
| PValVar (v : ValVar.t)
| PClass (c : ObjectClassification.t).

(** ** Object (object.py, lines 59-177) *)

Module Object.

(** [vars(self)]: the instance dictionary, in field declaration order. *)
Definition t := list (string * pyval).

(** The declared fields, with their types. *)
Record fields := mk {
  id : string;
  birth_stamp : Z;
  heading : ValVar.t;
  width : ValVar.t;
  height : ValVar.t;
  length : ValVar.t;
  rcs : list Q;
  age : list Q;
  tracking_point : list Z;
  confidence_of_existence : list Q;
  movement_classification : list Z;
  meas_state : list Z;
  dist_longitudinal : ValVar.t;
  dist_lateral : ValVar.t;
  dist_z : ValVar.t;
  rel_vel_longitudinal : ValVar.t;
  rel_vel_lateral : ValVar.t;
  abs_vel_longitudinal : ValVar.t;
  abs_vel_lateral : ValVar.t;
  rel_acc_longitudinal : ValVar.t;
  rel_acc_lateral : ValVar.t;
  abs_acc_longitudinal : ValVar.t;
  abs_acc_lateral : ValVar.t;
  object_classification : ObjectClassification.t }.

(** [Object(...)]: the instance dictionary pydantic builds, one entry per
    declared field, in declaration order. *)
Definition new (r : fields) : t :=
  [("id", PStr (id r));
   ("birth_stamp", PInt (birth_stamp r));
   ("heading", PValVar (heading r));
   ("width", PValVar (width r));
   ("height", PValVar (height r));
   ("length", PValVar (length r));
   ("rcs", PArray (rcs r));
   ("age", PArray (age r));
   ("tracking_point", PList (tracking_point r));
   ("confidence_of_existence", PArray (confidence_of_existence r));
   ("movement_classification", PList (movement_classification r));
   ("meas_state", PList (meas_state r));
   ("dist_longitudinal", PValVar (dist_longitudinal r));
   ("dist_lateral", PValVar (dist_lateral r));
   ("dist_z", PValVar (dist_z r));
   ("rel_vel_longitudinal", PValVar (rel_vel_longitudinal r));
   ("rel_vel_lateral", PValVar (rel_vel_lateral r));
   ("abs_vel_longitudinal", PValVar (abs_vel_longitudinal r));
   ("abs_vel_lateral", PValVar (abs_vel_lateral r));
   ("rel_acc_longitudinal", PValVar (rel_acc_longitudinal r));
   ("rel_acc_lateral", PValVar (rel_acc_lateral r));
   ("abs_acc_longitudinal", PValVar (abs_acc_longitudinal r));
   ("abs_acc_lateral", PValVar (abs_acc_lateral r));
   ("object_classification", PClass (object_classification r))].

(** The field defaults ([id = 'RU-1'], [birth_stamp = 0], empty series). *)
Definition default : fields :=
  mk "RU-1" 0 ValVar.default ValVar.default ValVar.default ValVar.default
     [] [] [] [] [] []
     ValVar.default ValVar.default ValVar.default ValVar.default
     ValVar.default ValVar.default ValVar.default ValVar.default
     ValVar.default ValVar.default ValVar.default
     ObjectClassification.default.

(** [len] property: [len(self.dist_lateral.val)]. *)
Definition len (self : t) : result Z :=
  match lookup "dist_lateral" self with
  | Some (PValVar v) => Ok (Z.of_nat (List.length (ValVar.val v)))
  | Some _ => Err (AttributeError "val")
  | None => Err (AttributeError "dist_lateral")
  end.

(** [in_timespan]:
    [birth < (obj.birth_stamp + len(obj.dist_lateral.val))
     and death >= obj.birth_stamp] *)
Definition in_timespan (obj : t) (birth death : Z) : result bool :=
  match lookup "birth_stamp" obj with
  | Some (PInt bs) =>
      match len obj with
      | Ok n => Ok ((birth <? bs + n) && (death >=? bs))
      | Err e => Err e
      end
  | Some _ => Err TypeError
  | None => Err (AttributeError "birth_stamp")
  end.

(** [end] property: [self.birth_stamp + self.len] ([end] is a keyword of
    Rocq, hence the underscore). *)
Definition end_ (self : t) : result Z :=
  match lookup "birth_stamp" self with
  | Some (PInt bs) =>
      match len self with
      | Ok n => Ok (bs + n)
      | Err e => Err e
      end
  | Some _ => Err TypeError
  | None => Err (AttributeError "birth_stamp")
  end.

(** The body of the loop over [vars(self).items()] for one value:
    [ValVar] and [ObjectClassification] values cut themselves, arrays and
    lists are replaced by [v[birth:death + 1]], other values stay. *)
Definition cut_attr (birth death : Z) (v : pyval) : pyval * option err :=
  match v with
  | PValVar vv =>
      let (vv', e) := ValVar.cut_to_timespan vv birth death in (PValVar vv', e)
  | PClass c =>
      let (c', e) := ObjectClassification.cut_to_timespan c birth death in
      (PClass c', e)
  | PArray a => (PArray (py_slice a birth (death + 1)), None)
  | PList l => (PList (py_slice l birth (death + 1)), None)
  | PStr _ | PInt _ => (v, None)
  end.

(** The loop itself; an exception stops it, the entries visited so far
    keep their new values. *)
Fixpoint cut_attrs (birth death : Z) (d : t) : t * option err :=
  match d with
  | [] => ([], None)
  | (k, v) :: d' =>
      let (v', e) := cut_attr birth death v in
      match e with
      | Some _ => ((k, v') :: d', e)
      | None => let (d'', e') := cut_attrs birth death d' in ((k, v') :: d'', e')
      end
  end.

(** [cut_to_timespan] (object.py, lines 102-114). *)
Definition cut_to_timespan (self : t) (birth death : Z) : t * option err :=
  if negb (birth >=? 0) then (self, Some AssertionError)
  else if negb (birth <=? death) then (self, Some AssertionError)
  else match len self with
       | Err e => (self, Some e)
       | Ok n =>
           if negb (n >? death) then (self, Some AssertionError)
           else match lookup "birth_stamp" self with
                | Some (PInt bs) =>
                    cut_attrs birth death
                      (dict_set "birth_stamp" (PInt (bs + birth)) self)
                | Some _ => (self, Some TypeError)
                | None => (self, Some (AttributeError "birth_stamp"))
                end
       end.

(** Typed attribute reads used by [to_hdf5]; a value of another kind has
    not the method or contents used there. *)
Definition get_int (self : t) (k : string) : M Z :=
  match lookup k self with
  | Some (PInt z) => ret z
  | Some _ => raise TypeError
  | None => raise (AttributeError k)
  end.

Definition get_valvar (self : t) (k : string) : M ValVar.t :=
  match lookup k self with
  | Some (PValVar v) => ret v
  | Some _ => raise TypeError
  | None => raise (AttributeError k)
  end.

Definition get_class (self : t) (k : string) : M ObjectClassification.t :=
  match lookup k self with
  | Some (PClass c) => ret c
  | Some _ => raise TypeError
  | None => raise (AttributeError k)
  end.

(** [data=self.k] of a dataset write: an array, or a list of enum members. *)
Definition get_data (self : t) (k : string) : M Store.dataset :=
  match lookup k self with
  | Some (PArray a) => ret (Store.DFloat a)
  | Some (PList l) => ret (Store.DEnum l)
  | Some _ => raise TypeError
  | None => raise (AttributeError k)
  end.

(** [self.k.to_hdf5(group.create_group(key))] *)
Definition write_valvar (cfg : Settings.t) (self : t) (g : Store.group)
    (k key : string) : M Store.group :=
  v <- get_valvar self k ;;
  Store.create_group g key (ValVar.to_hdf5 cfg v).

(** [group.create_dataset(key, data=self.k, **get_settings().hdf5_compress_args)] *)
Definition write_data (cfg : Settings.t) (self : t) (g : Store.group)
    (k key : string) : M Store.group :=
  d <- get_data self k ;;
  args <- SettingsGetter.hdf5_compress_args cfg ;;
  Store.create_dataset g key d args.

(** [to_hdf5] (object.py, lines 152-177); [cfg] is [get_settings()]. *)
Definition to_hdf5 (cfg : Settings.t) (self : t) (g : Store.group) :
  M Store.group :=
  bs <- get_int self "birth_stamp" ;;
  g <- Store.attrs_create g "birthStamp" bs ;;
  g <- write_valvar cfg self g "heading" "heading" ;;
  g <- write_valvar cfg self g "width" "width" ;;
  g <- write_valvar cfg self g "height" "height" ;;
  g <- write_valvar cfg self g "length" "length" ;;
  g <- write_data cfg self g "rcs" "rcs" ;;
  g <- write_data cfg self g "age" "age" ;;
  g <- write_data cfg self g "tracking_point" "trackingPoint" ;;
  g <- write_data cfg self g "confidence_of_existence" "confidenceOfExistence" ;;
  g <- write_data cfg self g "movement_classification" "movementClassification" ;;
  g <- write_data cfg self g "meas_state" "measState" ;;
  g <- write_valvar cfg self g "dist_longitudinal" "distLongitudinal" ;;
  g <- write_valvar cfg self g "dist_lateral" "distLateral" ;;
  g <- write_valvar cfg self g "dist_z" "distZ" ;;
  g <- write_valvar cfg self g "rel_vel_longitudinal" "relVelLongitudinal" ;;
  g <- write_valvar cfg self g "rel_vel_lateral" "relVelLateral" ;;
  g <- write_valvar cfg self g "abs_vel_longitudinal" "absVelLongitudinal" ;;
  g <- write_valvar cfg self g "abs_vel_lateral" "absVelLateral" ;;
  g <- write_valvar cfg self g "rel_acc_longitudinal" "relAccLongitudinal" ;;
  g <- write_valvar cfg self g "rel_acc_lateral" "relAccLateral" ;;
  g <- write_valvar cfg self g "abs_acc_longitudinal" "absAccLongitudinal" ;;
  g <- write_valvar cfg self g "abs_acc_lateral" "absAccLateral" ;;
  c <- get_class self "object_classification" ;;
  Store.create_group g "objectClassification" (ObjectClassification.to_hdf5 cfg c).

(** [ValVar.from_hdf5(group[key], validate=validate)] *)
Definition read_valvar (g : Store.group) (key : string) (validate : bool) :
  M ValVar.t :=
  c <- Store.get_group g key ;; ValVar.from_hdf5 c validate.

(** [from_hdf5] (object.py, lines 116-150): the arguments are read in
    order, then [cls(...)] or [cls.construct(...)] builds the instance;
    [Object] declares no validator of its own, so both build the same
    dictionary from these values. *)
Definition from_hdf5 (g : Store.group) (validate : bool) : M t :=
  let sub_group_name := Store.last_component (Store.name g) in
  bs <- (a <- Store.get_attr g "birthStamp" ;; ret (Store.astype_int a)) ;;
  heading <- read_valvar g "heading" validate ;;
  width <- read_valvar g "width" validate ;;
  height <- read_valvar g "height" validate ;;
  length <- read_valvar g "length" validate ;;
  rcs <- Store.get_floats g "rcs" ;;
  age <- Store.get_floats g "age" ;;
  tracking_point <- Store.get_codes g "trackingPoint" ;;
  confidence_of_existence <- Store.get_floats g "confidenceOfExistence" ;;
  movement_classification <- Store.get_codes g "movementClassification" ;;
  meas_state <- Store.get_codes g "measState" ;;
  dist_longitudinal <- read_valvar g "distLongitudinal" validate ;;
  dist_lateral <- read_valvar g "distLateral" validate ;;
  dist_z <- read_valvar g "distZ" validate ;;
  rel_vel_longitudinal <- read_valvar g "relVelLongitudinal" validate ;;
  rel_vel_lateral <- read_valvar g "relVelLateral" validate ;;
  abs_vel_longitudinal <- read_valvar g "absVelLongitudinal" validate ;;
  abs_vel_lateral <- read_valvar g "absVelLateral" validate ;;
  rel_acc_longitudinal <- read_valvar g "relAccLongitudinal" validate ;;
  rel_acc_lateral <- read_valvar g "relAccLateral" validate ;;
  abs_acc_longitudinal <- read_valvar g "absAccLongitudinal" validate ;;
  abs_acc_lateral <- read_valvar g "absAccLateral" validate ;;
  oc <- (c <- Store.get_group g "objectClassification" ;;
         ObjectClassification.from_hdf5 c validate) ;;
  ret (new (mk sub_group_name bs heading width height length rcs age
               tracking_point confidence_of_existence movement_classification
               meas_state dist_longitudinal dist_lateral dist_z
               rel_vel_longitudinal rel_vel_lateral abs_vel_longitudinal
               abs_vel_lateral rel_acc_longitudinal rel_acc_lateral
               abs_acc_longitudinal abs_acc_lateral oc)).

End Object.

(** ** Views used to state the properties *)

(** Lengths of the time-indexed series held by an attribute value: both
    series of a [ValVar] or of an [ObjectClassification], the one series of
    an array or a list; none for a string or an integer. *)
Definition time_lengths (v : pyval) : list nat :=
  match v with
  | PValVar vv => [List.length (ValVar.val vv); List.length (ValVar.var vv)]
  | PClass c =>
      [List.length (ObjectClassification.val c);
       List.length (ObjectClassification.confidence c)]
  | PArray a => [List.length a]
  | PList l => [List.length l]
  | PStr _ | PInt _ => []
  end.

(** Raw sequences: the values [cut_to_timespan] slices itself. *)
Definition is_raw (v : pyval) : bool :=
  match v with PArray _ | PList _ => true | _ => false end.

(** What a node holds at its top level: its attributes, the keys of its
    datasets and the keys of its child groups, in creation order. *)
Definition layout (g : Store.group) :
  list (string * Store.attr) * list string * list string :=
  match g with Store.Group _ a ds ch => (a, map fst ds, map fst ch) end.

Module ObjectFields.
Import Object.

(** Record updates of the declared fields. *)
Definition with_id (r : fields) (s : string) : fields :=
  mk s (birth_stamp r) (heading r) (width r) (height r) (length r)
     (rcs r) (age r) (tracking_point r) (confidence_of_existence r)
     (movement_classification r) (meas_state r)
     (dist_longitudinal r) (dist_lateral r) (dist_z r)
     (rel_vel_longitudinal r) (rel_vel_lateral r)
     (abs_vel_longitudinal r) (abs_vel_lateral r)
     (rel_acc_longitudinal r) (rel_acc_lateral r)
     (abs_acc_longitudinal r) (abs_acc_lateral r) (object_classification r).

Definition with_birth_stamp (r : fields) (z : Z) : fields :=
  mk (id r) z (heading r) (width r) (height r) (length r)
     (rcs r) (age r) (tracking_point r) (confidence_of_existence r)
     (movement_classification r) (meas_state r)
     (dist_longitudinal r) (dist_lateral r) (dist_z r)
     (rel_vel_longitudinal r) (rel_vel_lateral r)
     (abs_vel_longitudinal r) (abs_vel_lateral r)
     (rel_acc_longitudinal r) (rel_acc_lateral r)
     (abs_acc_longitudinal r) (abs_acc_lateral r) (object_classification r).

(** The six raw sequences replaced, everything else kept. *)
Definition with_raw (r : fields) (rcs' age' : list Q) (tracking_point' : list Z)
    (confidence_of_existence' : list Q)
    (movement_classification' meas_state' : list Z) : fields :=
  mk (id r) (birth_stamp r) (heading r) (width r) (height r) (length r)
     rcs' age' tracking_point' confidence_of_existence'
     movement_classification' meas_state'
     (dist_longitudinal r) (dist_lateral r) (dist_z r)
     (rel_vel_longitudinal r) (rel_vel_lateral r)
     (abs_vel_longitudinal r) (abs_vel_lateral r)
     (rel_acc_longitudinal r) (rel_acc_lateral r)
     (abs_acc_longitudinal r) (abs_acc_lateral r) (object_classification r).

(** The default object with a given [birth_stamp] and [dist_lateral]. *)
Definition sample (bs : Z) (dl : ValVar.t) : fields :=
  let d := default in
  mk (id d) bs (heading d) (width d) (height d) (length d)
     (rcs d) (age d) (tracking_point d) (confidence_of_existence d)
     (movement_classification d) (meas_state d)
     (dist_longitudinal d) dl (dist_z d)
     (rel_vel_longitudinal d) (rel_vel_lateral d)
     (abs_vel_longitudinal d) (abs_vel_lateral d)
     (rel_acc_longitudinal d) (rel_acc_lateral d)
     (abs_acc_longitudinal d) (abs_acc_lateral d) (object_classification d).

End ObjectFields.

(** [n] zero samples. *)
Definition zeros (n : nat) : list Q := repeat 0%Q n.

(** An object whose every time-indexed series has [n] zero samples. *)
Definition uniform_sample (bs : Z) (n : nat) : Object.fields :=
  let vv := ValVar.mk (zeros n) (zeros n) in
  Object.mk "RU-1" bs vv vv vv vv (zeros n) (zeros n) (repeat 0 n) (zeros n)
    (repeat 0 n) (repeat 0 n) vv vv vv vv vv vv vv vv vv vv vv
    (ObjectClassification.mk (repeat 0 n) (zeros n)).

(** A settings object that supplies compression options. *)
Definition cfg_gzip : Settings.t :=
  app Settings.default
    [("hdf5_compress_args",
      PyDict [("compression", PyStr "gzip"); ("compression_opts", PyInt 4)])].

(** The default object with a confidence of [3/2] in its classification. *)
Definition invalid_sample : Object.fields :=
  let d := ObjectFields.sample 0 ValVar.default in
  Object.mk (Object.id d) (Object.birth_stamp d) (Object.heading d) (Object.width d)
     (Object.height d) (Object.length d) (Object.rcs d) (Object.age d)
     (Object.tracking_point d) (Object.confidence_of_existence d)
     (Object.movement_classification d) (Object.meas_state d)
     (Object.dist_longitudinal d) (Object.dist_lateral d) (Object.dist_z d)
     (Object.rel_vel_longitudinal d) (Object.rel_vel_lateral d)
     (Object.abs_vel_longitudinal d) (Object.abs_vel_lateral d)
     (Object.rel_acc_longitudinal d) (Object.rel_acc_lateral d)
     (Object.abs_acc_longitudinal d) (Object.abs_acc_lateral d)
     (ObjectClassification.mk [1] [3 # 2]).


(** Two dictionaries that agree except on raw sequences. *)
Definition agree_but_raw (kv kv' : string * pyval) : Prop :=
  fst kv = fst kv' /\
  (snd kv = snd kv' \/ (is_raw (snd kv) = true /\ is_raw (snd kv') = true)).

(** The part of one sequence that survives the cut: an empty sequence
    stays empty, a non-empty one keeps [[birth, death]]. *)
Definition trim_or_keep_empty {A} (l : list A) (birth death : Z) : list A :=
  match l with [] => [] | _ => py_slice l birth (death + 1) end.

(** * Lemmas *)

(** ** Slicing *)

Lemma py_slice_length {A} (l : list A) (lo hi : Z) :
  0 <= lo -> 0 <= hi ->
  List.length (py_slice l lo hi) =
  Z.to_nat (Z.min hi (Z.of_nat (List.length l)) - Z.min lo (Z.of_nat (List.length l))).
Proof.
  intros Hlo Hhi. unfold py_slice, norm_index.
  destruct (Z.ltb_spec lo 0); [lia|]. destruct (Z.ltb_spec hi 0); [lia|].
  rewrite length_firstn, length_skipn. lia.
Qed.

Lemma py_slice_window_length {A} (l : list A) (b d : Z) :
  0 <= b <= d -> d < Z.of_nat (List.length l) ->
  Z.of_nat (List.length (py_slice l b (d + 1))) = d - b + 1.
Proof. intros. rewrite py_slice_length by lia. lia. Qed.

Lemma cut_series_nil {A} (b d : Z) : cut_series (@nil A) b d = Some [].
Proof. reflexivity. Qed.

Lemma cut_series_in_range {A} (l : list A) (b d : Z) :
  0 <= b <= d -> d < Z.of_nat (List.length l) ->
  cut_series l b d = Some (py_slice l b (d + 1)).
Proof.
  intros Hb Hd. unfold cut_series.
  destruct (Z.ltb_spec 0 (Z.of_nat (List.length l))); [|lia].
  destruct (Z.ltb_spec b (Z.of_nat (List.length l))); [|lia].
  destruct (Z.ltb_spec d (Z.of_nat (List.length l))); [|lia].
  reflexivity.
Qed.

Lemma cut_series_short {A} (l : list A) (b d : Z) :
  l <> [] -> Z.of_nat (List.length l) <= d -> cut_series l b d = None.
Proof.
  intros Hne Hd. unfold cut_series.
  destruct l as [|x l']; [congruence|].
  destruct (Z.ltb_spec 0 (Z.of_nat (List.length (x :: l')))); [|simpl in *; lia].
  destruct (Z.ltb_spec b (Z.of_nat (List.length (x :: l')))); [|reflexivity].
  destruct (Z.ltb_spec d (Z.of_nat (List.length (x :: l')))); [lia|reflexivity].
Qed.

(** A non-empty series is cut or refused; an empty one stays empty. *)
Lemma cut_series_cases {A} (l : list A) (b d : Z) :
  0 <= b <= d ->
  cut_series l b d =
  match l with
  | [] => Some []
  | _ => if d <? Z.of_nat (List.length l) then Some (py_slice l b (d + 1)) else None
  end.
Proof.
  intros Hbd. destruct l as [|x l']; [reflexivity|].
  destruct (Z.ltb_spec d (Z.of_nat (List.length (x :: l')))).
  - apply cut_series_in_range; lia.
  - apply cut_series_short; [discriminate|lia].
Qed.

(** ** Dictionaries *)

Lemma lookup_dict_set_eq {V} (k : string) (v : V) d :
  lookup k (dict_set k v d) = Some v.
Proof.
  induction d as [|[k' v'] d IH]; simpl.
  - rewrite String.eqb_refl. reflexivity.
  - destruct (String.eqb k k') eqn:E; simpl.
    + rewrite String.eqb_refl. reflexivity.
    + rewrite E. exact IH.
Qed.

Lemma lookup_dict_set_neq {V} (k k0 : string) (v : V) d :
  k <> k0 -> lookup k (dict_set k0 v d) = lookup k d.
Proof.
  intros Hne. induction d as [|[k' v'] d IH]; simpl.
  - apply String.eqb_neq in Hne. rewrite Hne. reflexivity.
  - destruct (String.eqb k0 k') eqn:E; simpl.
    + apply String.eqb_eq in E. subst k'.
      apply String.eqb_neq in Hne. rewrite Hne. reflexivity.
    + destruct (String.eqb k k'); [reflexivity|exact IH].
Qed.

Lemma lookup_not_key {V} (k : string) (d : list (string * V)) :
  ~ In k (map fst d) -> lookup k d = None.
Proof.
  induction d as [|[k' v'] d IH]; simpl; intros Hn; [reflexivity|].
  destruct (String.eqb_spec k k'); [subst; tauto|]. apply IH. tauto.
Qed.

Lemma lookup_map_values (f : pyval -> pyval) (k : string) (d : Object.t) :
  lookup k (map (fun kv => (fst kv, f (snd kv))) d) = option_map f (lookup k d).
Proof.
  induction d as [|[k' v'] d IH]; simpl; [reflexivity|].
  destruct (String.eqb k k'); [reflexivity|exact IH].
Qed.

(** ** The loop of [Object.cut_to_timespan] *)

Lemma cut_attrs_no_error (b d : Z) (o : Object.t) :
  snd (Object.cut_attrs b d o) = None ->
  fst (Object.cut_attrs b d o) =
  map (fun kv => (fst kv, fst (Object.cut_attr b d (snd kv)))) o.
Proof.
  induction o as [|[k v] o IH]; simpl; [reflexivity|].
  destruct (Object.cut_attr b d v) as [v' e] eqn:E.
  destruct e as [e|]; simpl; [discriminate|].
  destruct (Object.cut_attrs b d o) as [o' e'] eqn:Eo. simpl in *.
  intros He. rewrite IH by exact He. reflexivity.
Qed.

Lemma cut_attrs_all_ok (b d : Z) (o : Object.t) :
  (forall k v, In (k, v) o -> snd (Object.cut_attr b d v) = None) ->
  snd (Object.cut_attrs b d o) = None.
Proof.
  induction o as [|[k v] o IH]; simpl; intros H; [reflexivity|].
  destruct (Object.cut_attr b d v) as [v' e] eqn:E.
  assert (e = None) as -> by (specialize (H k v (or_introl eq_refl));
                              rewrite E in H; exact H).
  destruct (Object.cut_attrs b d o) as [o' e'] eqn:Eo. simpl.
  apply IH.
  intros k1 v1 Hin. exact (H k1 v1 (or_intror Hin)).
Qed.

(** An entry the cut leaves as it is, is still there afterwards, whether
    the loop finished or stopped on an exception. *)
Lemma cut_attrs_keeps (b d : Z) (o : Object.t) (k : string) (v : pyval) :
  lookup k o = Some v -> fst (Object.cut_attr b d v) = v ->
  lookup k (fst (Object.cut_attrs b d o)) = Some v.
Proof.
  intros Hk Hv. induction o as [|[k' v'] o IH]; simpl in *; [discriminate|].
  destruct (Object.cut_attr b d v') as [v'' e] eqn:E.
  destruct (String.eqb k k') eqn:Ek.
  - injection Hk as <-. rewrite E in Hv. simpl in Hv. subst v''.
    destruct e; [simpl; rewrite Ek; reflexivity|].
    destruct (Object.cut_attrs b d o). simpl. rewrite Ek. reflexivity.
  - destruct e; simpl.
    + rewrite Ek. exact Hk.
    + destruct (Object.cut_attrs b d o) as [o' e'] eqn:Eo. simpl in *.
      rewrite Ek. exact (IH Hk).
Qed.

Lemma cut_attr_raw_ok (b d : Z) (v : pyval) :
  is_raw v = true -> snd (Object.cut_attr b d v) = None.
Proof. destruct v; simpl; congruence. Qed.

Lemma cut_attrs_error_ignores_raw (b d : Z) (o1 o2 : Object.t) :
  Forall2 agree_but_raw o1 o2 ->
  snd (Object.cut_attrs b d o1) = snd (Object.cut_attrs b d o2).
Proof.
  induction 1 as [|[k1 v1] [k2 v2] o1 o2 [Hk Hv] _ IH]; simpl in *; [reflexivity|].
  subst k2.
  destruct Hv as [<- | [R1 R2]].
  - destruct (Object.cut_attr b d v1) as [v' e].
    destruct e; [reflexivity|].
    destruct (Object.cut_attrs b d o1), (Object.cut_attrs b d o2). exact IH.
  - pose proof (cut_attr_raw_ok b d v1 R1) as E1.
    pose proof (cut_attr_raw_ok b d v2 R2) as E2.
    destruct (Object.cut_attr b d v1) as [v1' e1], (Object.cut_attr b d v2) as [v2' e2].
    simpl in E1, E2. subst e1 e2.
    destruct (Object.cut_attrs b d o1), (Object.cut_attrs b d o2). exact IH.
Qed.

(** [cut_to_timespan] on a constructed object: the three assertions, then
    the loop over the dictionary with [birth_stamp] already shifted. *)
Lemma cut_new_unfold (r : Object.fields) (b d : Z) :
  Object.cut_to_timespan (Object.new r) b d =
  if (0 <=? b) && (b <=? d) &&
     (d <? Z.of_nat (List.length (ValVar.val (Object.dist_lateral r))))
  then Object.cut_attrs b d
         (Object.new (ObjectFields.with_birth_stamp r (Object.birth_stamp r + b)))
  else (Object.new r, Some AssertionError).
Proof.
  destruct r. unfold Object.cut_to_timespan. simpl.
  rewrite Z.geb_leb, Z.gtb_ltb.
  destruct (0 <=? b); [|reflexivity].
  destruct (b <=? d); [|reflexivity].
  destruct (d <? _); reflexivity.
Qed.

Lemma len_new (r : Object.fields) :
  Object.len (Object.new r) =
  Ok (Z.of_nat (List.length (ValVar.val (Object.dist_lateral r)))).
Proof. destruct r. reflexivity. Qed.

Lemma in_dict_set {V} (k0 : string) (v0 : V) d k v :
  In (k, v) (dict_set k0 v0 d) -> In (k, v) d \/ (k, v) = (k0, v0).
Proof.
  induction d as [|[k' v'] d IH]; simpl.
  - intros [H|[]]. right. symmetry. exact H.
  - destruct (String.eqb k0 k'); simpl.
    + intros [H|H]; [right; symmetry; exact H|left; right; exact H].
    + intros [H|H]; [left; left; exact H|].
      destruct (IH H); [left; right|right]; assumption.
Qed.

Lemma new_with_birth_stamp (r : Object.fields) (z : Z) :
  Object.new (ObjectFields.with_birth_stamp r z) =
  dict_set "birth_stamp" (PInt z) (Object.new r).
Proof. destruct r. reflexivity. Qed.

(** A value whose series all have the length [L > death] is cut without
    error, to series of [death - birth + 1] elements. *)
Lemma cut_attr_uniform (b d : Z) (L : nat) (v : pyval) :
  0 <= b <= d -> d < Z.of_nat L ->
  Forall (fun n => n = L) (time_lengths v) ->
  snd (Object.cut_attr b d v) = None /\
  Forall (fun n => Z.of_nat n = d - b + 1) (time_lengths (fst (Object.cut_attr b d v))).
Proof.
  intros Hb Hd HF.
  assert (Hb0 : (0 <=? b) = true) by (apply Z.leb_le; lia).
  assert (Hbd : (b <=? d) = true) by (apply Z.leb_le; lia).
  destruct v as [s|z|a|l|[vl vr]|[cl cc]]; simpl in HF |- *.
  - split; constructor.
  - split; constructor.
  - inversion HF as [|? ? H1 _]; subst L.
    split; [reflexivity|]. constructor; [apply py_slice_window_length; lia|constructor].
  - inversion HF as [|? ? H1 _]; subst L.
    split; [reflexivity|]. constructor; [apply py_slice_window_length; lia|constructor].
  - inversion HF as [|? ? H1 HF']; inversion HF' as [|? ? H2 _]; subst L.
    unfold ValVar.cut_to_timespan; simpl. rewrite Hb0, Hbd. simpl.
    rewrite (cut_series_in_range vl) by lia. simpl.
    rewrite (cut_series_in_range vr) by lia. simpl.
    split; [reflexivity|].
    repeat constructor; apply py_slice_window_length; lia.
  - inversion HF as [|? ? H1 HF']; inversion HF' as [|? ? H2 _]; subst L.
    unfold ObjectClassification.cut_to_timespan; simpl. rewrite Hb0, Hbd. simpl.
    rewrite (cut_series_in_range cl) by lia. simpl.
    rewrite (cut_series_in_range cc) by lia. simpl.
    split; [reflexivity|].
    repeat constructor; apply py_slice_window_length; lia.
Qed.

Lemma in_new_dist_lateral (r : Object.fields) :
  In ("dist_lateral", PValVar (Object.dist_lateral r)) (Object.new r).
Proof. destruct r. simpl. tauto. Qed.

Lemma lookup_new_dist_lateral (r : Object.fields) (z : Z) :
  lookup "dist_lateral" (Object.new (ObjectFields.with_birth_stamp r z)) =
  Some (PValVar (Object.dist_lateral r)).
Proof. destruct r. reflexivity. Qed.

(** * Claims *)

(** ** C2: length of the fields after [Object.cut_to_timespan] *)

(** C2 (as amended): for an [Object] whose time-indexed fields all have the
    same length [L] (every series of every ValVar, both sequences of the
    classification, every raw sequence), and [0 <= birth <= death < L],
    [cut_to_timespan(birth, death)] raises nothing, [len] becomes
    [death - birth + 1], and every time-indexed series has exactly
    [death - birth + 1] elements. *)
Theorem cut_lengths_when_uniform (r : Object.fields) (L : nat) (birth death : Z) :
  (forall k v, In (k, v) (Object.new r) -> Forall (fun n => n = L) (time_lengths v)) ->
  0 <= birth <= death -> death < Z.of_nat L ->
  snd (Object.cut_to_timespan (Object.new r) birth death) = None /\
  Object.len (fst (Object.cut_to_timespan (Object.new r) birth death)) =
    Ok (death - birth + 1) /\
  (forall k v, In (k, v) (fst (Object.cut_to_timespan (Object.new r) birth death)) ->
     Forall (fun n => Z.of_nat n = death - birth + 1) (time_lengths v)).
Proof.
  intros HU Hb Hd.
  pose proof (HU _ _ (in_new_dist_lateral r)) as HL. simpl in HL.
  inversion HL as [|? ? HL1 _].
  rewrite cut_new_unfold.
  replace ((0 <=? birth) && (birth <=? death) &&
           (death <? Z.of_nat (List.length (ValVar.val (Object.dist_lateral r)))))
    with true
    by (symmetry; repeat rewrite andb_true_iff;
        repeat split; [apply Z.leb_le | apply Z.leb_le | apply Z.ltb_lt]; lia).
  set (z := Object.birth_stamp r + birth).
  assert (HU1 : forall k v,
             In (k, v) (Object.new (ObjectFields.with_birth_stamp r z)) ->
             Forall (fun n => n = L) (time_lengths v)).
  { intros k v Hin. rewrite new_with_birth_stamp in Hin.
    destruct (in_dict_set _ _ _ _ _ Hin) as [Hd1|Hd1].
    - exact (HU k v Hd1).
    - injection Hd1 as _ ->. constructor. }
  assert (Hok : snd (Object.cut_attrs birth death
                       (Object.new (ObjectFields.with_birth_stamp r z))) = None).
  { apply cut_attrs_all_ok. intros k v Hin.
    exact (proj1 (cut_attr_uniform birth death L v Hb Hd (HU1 k v Hin))). }
  split; [exact Hok|].
  rewrite (cut_attrs_no_error _ _ _ Hok).
  split.
  - unfold Object.len. rewrite (lookup_map_values (fun v => fst (Object.cut_attr birth death v))), lookup_new_dist_lateral. simpl.
    pose proof (cut_attr_uniform birth death L (PValVar (Object.dist_lateral r)) Hb Hd
                  (HU _ _ (in_new_dist_lateral r))) as [_ HF].
    simpl in HF.
    destruct (ValVar.cut_to_timespan (Object.dist_lateral r) birth death) as [vv e].
    simpl in HF |- *. inversion HF as [|? ? H1 _]. rewrite H1. reflexivity.
  - intros k v Hin. apply in_map_iff in Hin as [[k0 v0] [Heq Hin]].
    simpl in Heq. injection Heq as <- <-.
    exact (proj2 (cut_attr_uniform birth death L v0 Hb Hd (HU1 k0 v0 Hin))).
Qed.

(** An object with a 3-sample [dist_lateral] and every other series empty
    (the field defaults). *)
Lemma cut_lengths_counterexample :
  let r := ObjectFields.sample 0 (ValVar.mk (zeros 3) (zeros 3)) in
  Object.len (Object.new r) = Ok 3 /\
  snd (Object.cut_to_timespan (Object.new r) 0 0) = None /\
  Object.len (fst (Object.cut_to_timespan (Object.new r) 0 0)) = Ok 1 /\
  lookup "rcs" (fst (Object.cut_to_timespan (Object.new r) 0 0)) = Some (PArray []) /\
  ~ (forall k v, In (k, v) (fst (Object.cut_to_timespan (Object.new r) 0 0)) ->
       Forall (fun n => Z.of_nat n = 0 - 0 + 1) (time_lengths v)).
Proof.
  simpl. repeat split; try reflexivity.
  intros H. specialize (H "rcs" (PArray [])).
  assert (Hin : In ("rcs", PArray []) (fst (Object.cut_to_timespan
            (Object.new (ObjectFields.sample 0 (ValVar.mk (zeros 3) (zeros 3)))) 0 0))).
  { vm_compute. tauto. }
  specialize (H Hin). inversion H as [|? ? H1 _]. simpl in H1. discriminate.
Qed.

Lemma cut_lengths_when_uniform_witness :
  let r := uniform_sample 7 4 in
  Object.len (fst (Object.cut_to_timespan (Object.new r) 1 2)) = Ok 2.
Proof.
  intros r.
  refine (proj1 (proj2 (cut_lengths_when_uniform r 4 1 2 _ _ _))); [|lia|lia].
  intros k v Hin. vm_compute in Hin.
  repeat (destruct Hin as [Hin|Hin]; [injection Hin as <- <-; repeat constructor|]).
  destruct Hin.
Defined.

(** ** C3: [birth_stamp] shifts, identity and scalars stay *)

Lemma cut_attr_scalar (b d : Z) (v : pyval) :
  time_lengths v = [] -> fst (Object.cut_attr b d v) = v.
Proof. destruct v as [| | | |[]|[]]; simpl; congruence. Qed.

Lemma lookup_new_birth_stamp (r : Object.fields) (z : Z) :
  lookup "birth_stamp" (Object.new (ObjectFields.with_birth_stamp r z)) = Some (PInt z).
Proof. destruct r. reflexivity. Qed.

Lemma lookup_new_id (r : Object.fields) :
  lookup "id" (Object.new r) = Some (PStr (Object.id r)).
Proof. destruct r. reflexivity. Qed.

(** C3: for [0 <= birth <= death < len], after [cut_to_timespan(birth, death)]
    (whether it completes or stops on a failed assertion of a nested cut)
    [birth_stamp] is the old one plus [birth], [id] is unchanged, and so is
    every other attribute that holds no time series. *)
Theorem cut_shifts_birth_stamp (r : Object.fields) (birth death L : Z) :
  Object.len (Object.new r) = Ok L -> 0 <= birth <= death -> death < L ->
  let o' := fst (Object.cut_to_timespan (Object.new r) birth death) in
  lookup "birth_stamp" o' = Some (PInt (Object.birth_stamp r + birth)) /\
  lookup "id" o' = Some (PStr (Object.id r)) /\
  (forall k v, k <> "birth_stamp" -> lookup k (Object.new r) = Some v ->
     time_lengths v = [] -> lookup k o' = Some v).
Proof.
  intros HL Hr Hd o'. subst o'.
  rewrite len_new in HL. injection HL as HL.
  rewrite cut_new_unfold.
  replace ((0 <=? birth) && (birth <=? death) &&
           (death <? Z.of_nat (List.length (ValVar.val (Object.dist_lateral r)))))
    with true
    by (symmetry; repeat rewrite andb_true_iff;
        repeat split; [apply Z.leb_le | apply Z.leb_le | apply Z.ltb_lt]; lia).
  assert (Hframe : forall k v, k <> "birth_stamp" -> lookup k (Object.new r) = Some v ->
            time_lengths v = [] ->
            lookup k (fst (Object.cut_attrs birth death
              (Object.new (ObjectFields.with_birth_stamp r (Object.birth_stamp r + birth)))))
            = Some v).
  { intros k v Hk Hv Ht. apply cut_attrs_keeps; [|apply cut_attr_scalar; exact Ht].
    rewrite new_with_birth_stamp, lookup_dict_set_neq by exact Hk. exact Hv. }
  split; [|split].
  - apply cut_attrs_keeps; [apply lookup_new_birth_stamp|reflexivity].
  - apply Hframe; [discriminate|apply lookup_new_id|reflexivity].
  - exact Hframe.
Qed.

Lemma cut_shifts_birth_stamp_witness :
  lookup "birth_stamp"
    (fst (Object.cut_to_timespan (Object.new (uniform_sample 10 5)) 2 3)) =
  Some (PInt 12).
Proof.
  exact (proj1 (cut_shifts_birth_stamp (uniform_sample 10 5) 2 3 5
                  eq_refl ltac:(lia) ltac:(lia))).
Defined.

(** ** C4: out-of-range cuts fail *)

(** C4: [Object.cut_to_timespan(birth, death)] raises (Python [assert], the
    spec's [RangeError]) and leaves the object unchanged whenever
    [birth > death], [birth < 0] or [death >= len]. *)
Theorem cut_out_of_range_fails (r : Object.fields) (birth death L : Z) :
  Object.len (Object.new r) = Ok L ->
  birth > death \/ birth < 0 \/ death >= L ->
  Object.cut_to_timespan (Object.new r) birth death = (Object.new r, Some AssertionError).
Proof.
  intros HL Hbad. rewrite len_new in HL. injection HL as HL.
  rewrite cut_new_unfold, HL.
  replace ((0 <=? birth) && (birth <=? death) && (death <? L)) with false
    by (symmetry; destruct (Z.leb_spec 0 birth), (Z.leb_spec birth death),
                    (Z.ltb_spec death L); simpl; try reflexivity; lia).
  reflexivity.
Qed.

(** [cut_to_timespan(2, 10)] on an object with [len = 5]. *)
Lemma cut_out_of_range_fails_witness :
  Object.cut_to_timespan (Object.new (uniform_sample 0 5)) 2 10 =
  (Object.new (uniform_sample 0 5), Some AssertionError).
Proof.
  apply (cut_out_of_range_fails (uniform_sample 0 5) 2 10 5); [reflexivity|lia].
Defined.

(** ** C5: [in_timespan] *)

(** C5 (as amended): [in_timespan(birth, death)] returns
    [birth < birth_stamp + len and death >= birth_stamp]; for a non-empty
    window ([birth <= death]) and an object with [len > 0] this is exactly
    the overlap of [[birth_stamp, birth_stamp + len)] with [[birth, death]]. *)
Theorem in_timespan_formula (r : Object.fields) (birth death : Z) :
  let bs := Object.birth_stamp r in
  let n := Z.of_nat (List.length (ValVar.val (Object.dist_lateral r))) in
  Object.in_timespan (Object.new r) birth death =
    Ok ((birth <? bs + n) && (death >=? bs)) /\
  (birth <= death -> 0 < n ->
   ((birth <? bs + n) && (death >=? bs) = true <->
    exists t, bs <= t < bs + n /\ birth <= t <= death)).
Proof.
  intros bs n. split.
  - destruct r. reflexivity.
  - intros Hw Hn. rewrite andb_true_iff, Z.ltb_lt, Z.geb_le. split.
    + intros [H1 H2]. exists (Z.max birth bs). lia.
    + intros [t [H1 H2]]. lia.
Qed.

(** An empty window [(14, 12)] on the object with [birth_stamp = 10],
    [len = 5]: [in_timespan] is true, yet no time step lies in both. *)
Lemma in_timespan_counterexample :
  Object.in_timespan (Object.new (uniform_sample 10 5)) 14 12 = Ok true /\
  ~ (exists t, 10 <= t < 10 + 5 /\ 14 <= t <= 12).
Proof.
  split; [reflexivity|]. intros [t Ht]. lia.
Qed.

(** The four windows of the spec on [birth_stamp = 10], [len = 5]. *)
Lemma in_timespan_formula_witness :
  let o := Object.new (uniform_sample 10 5) in
  Object.in_timespan o 14 20 = Ok true /\ Object.in_timespan o 15 20 = Ok false /\
  Object.in_timespan o 0 10 = Ok true /\ Object.in_timespan o 0 9 = Ok false /\
  (exists t, 10 <= t < 10 + 5 /\ 14 <= t <= 20).
Proof.
  intros o.
  split; [exact (proj1 (in_timespan_formula (uniform_sample 10 5) 14 20))|].
  split; [exact (proj1 (in_timespan_formula (uniform_sample 10 5) 15 20))|].
  split; [exact (proj1 (in_timespan_formula (uniform_sample 10 5) 0 10))|].
  split; [exact (proj1 (in_timespan_formula (uniform_sample 10 5) 0 9))|].
  apply (proj2 (in_timespan_formula (uniform_sample 10 5) 14 20)); simpl;
    [lia|lia|reflexivity].
Defined.

(** ** C6, C7: validated construction of an ObjectClassification *)

Lemma in_unit_spec (x : Q) :
  ObjectClassification.in_unit x = true <-> (0 <= x <= 1)%Q.
Proof.
  unfold ObjectClassification.in_unit. rewrite andb_true_iff, !Qle_bool_iff.
  reflexivity.
Qed.

Lemma check_confidence_values_forallb (c : list Q) :
  ObjectClassification.check_confidence_values c =
  if forallb ObjectClassification.in_unit c then Ok c else Err AssertionError.
Proof. destruct c; reflexivity. Qed.

Lemma forallb_false_witness {A} (f : A -> bool) (l : list A) :
  forallb f l = false -> exists x, In x l /\ f x = false.
Proof.
  induction l as [|a l IH]; simpl; [discriminate|].
  destruct (f a) eqn:Ea; simpl.
  - intros H. destruct (IH H) as [x [Hin Hx]]. exists x. tauto.
  - intros _. exists a. tauto.
Qed.

Lemma all_in_unit (c : list Q) :
  (forall x, In x c -> (0 <= x <= 1)%Q) ->
  forallb ObjectClassification.in_unit c = true.
Proof.
  intros H. apply forallb_forall. intros x Hx. apply in_unit_spec. exact (H x Hx).
Qed.

Lemma new_in_range (v : list Z) (c : list Q) :
  forallb ObjectClassification.in_unit c = true ->
  ObjectClassification.new v c =
  (Ok (ObjectClassification.mk v c),
   if (List.length c =? List.length v)%nat then [] else [LengthMismatchWarning]).
Proof.
  intros Hc. unfold ObjectClassification.new.
  rewrite check_confidence_values_forallb, Hc.
  unfold ObjectClassification.check_array_length.
  destruct (List.length c =? List.length v)%nat; reflexivity.
Qed.

(** C6: validated construction of an [ObjectClassification] fails with a
    validation error exactly when some confidence value lies outside
    [[0, 1]], and succeeds, keeping the values, when all lie in [[0, 1]]
    (boundaries included, and trivially for an empty sequence). *)
Theorem confidence_range_validation (v : list Z) (c : list Q) :
  (fst (ObjectClassification.new v c) = Err ValidationError <->
     exists x, In x c /\ ~ (0 <= x <= 1)%Q) /\
  ((forall x, In x c -> (0 <= x <= 1)%Q) ->
     fst (ObjectClassification.new v c) = Ok (ObjectClassification.mk v c)).
Proof.
  destruct (forallb ObjectClassification.in_unit c) eqn:E.
  - rewrite (new_in_range v c E). simpl. split; [split|reflexivity].
    + discriminate.
    + intros [x [Hin Hx]]. exfalso. apply Hx, in_unit_spec.
      exact (proj1 (forallb_forall _ _) E x Hin).
  - assert (Hn : fst (ObjectClassification.new v c) = Err ValidationError).
    { unfold ObjectClassification.new.
      rewrite check_confidence_values_forallb, E. reflexivity. }
    split; [split|].
    + intros _. destruct (forallb_false_witness _ _ E) as [x [Hin Hx]].
      exists x. split; [exact Hin|]. intros Hr.
      apply in_unit_spec in Hr. congruence.
    + intros _. exact Hn.
    + intros H. rewrite (all_in_unit c H) in E. discriminate.
Qed.

Lemma confidence_range_validation_witness :
  fst (ObjectClassification.new [1] [3 # 2]) = Err ValidationError /\
  fst (ObjectClassification.new [1; 2] [0; 1]%Q) =
    Ok (ObjectClassification.mk [1; 2] [0; 1]%Q) /\
  fst (ObjectClassification.new [1; 2] []) = Ok (ObjectClassification.mk [1; 2] []).
Proof.
  split; [|split].
  - apply (proj1 (confidence_range_validation [1] [3 # 2])).
    exists (3 # 2). split; [left; reflexivity|]. unfold Qle. simpl. lia.
  - apply (proj2 (confidence_range_validation [1; 2] [0; 1]%Q)).
    intros x [<-|[<-|[]]]; unfold Qle; simpl; lia.
  - apply (proj2 (confidence_range_validation [1; 2] [])). intros x [].
Defined.

(** C7 (as amended): a length mismatch never makes construction fail:
    with every confidence value in [[0, 1]], construction succeeds and
    emits the length-mismatch warning exactly when the two lengths differ,
    the empty confidence sentinel included. *)
Theorem length_mismatch_only_warns (v : list Z) (c : list Q) :
  (forall x, In x c -> (0 <= x <= 1)%Q) ->
  ObjectClassification.new v c =
  (Ok (ObjectClassification.mk v c),
   if (List.length c =? List.length v)%nat then [] else [LengthMismatchWarning]).
Proof. intros H. apply new_in_range, all_in_unit, H. Qed.

(** Five labels and an empty confidence: the warning is emitted although
    the confidence sequence is empty. *)
Lemma warning_condition_counterexample :
  ObjectClassification.new [1; 2; 3; 4; 5] [] =
    (Ok (ObjectClassification.mk [1; 2; 3; 4; 5] []), [LengthMismatchWarning]) /\
  ~ (forall v c, snd (ObjectClassification.new v c) <> [] <->
                 (List.length v <> List.length c /\ c <> [])).
Proof.
  split; [reflexivity|]. intros H.
  destruct (proj1 (H [1; 2; 3; 4; 5] [])) as [_ Hc]; [discriminate|].
  apply Hc. reflexivity.
Qed.

Lemma length_mismatch_only_warns_witness :
  ObjectClassification.new [1; 2; 3; 4; 5] [] =
  (Ok (ObjectClassification.mk [1; 2; 3; 4; 5] []), [LengthMismatchWarning]).
Proof. exact (length_mismatch_only_warns [1; 2; 3; 4; 5] [] (fun x H => False_ind _ H)). Defined.

(** ** C8: [ObjectClassification.cut_to_timespan] *)

(** C8: for [0 <= birth <= death], the classification's two sequences are
    cut independently: each non-empty one must be longer than [death]
    (otherwise the cut raises) and keeps the closed range [[birth, death]],
    i.e. [death - birth + 1] elements; an empty one stays empty, so an empty
    confidence is not brought to the length of the cut labels. *)
Theorem classification_cut_independent (oc : ObjectClassification.t) (birth death : Z) :
  0 <= birth <= death ->
  let v := ObjectClassification.val oc in
  let c := ObjectClassification.confidence oc in
  ((v = [] \/ death < Z.of_nat (List.length v)) ->
   (c = [] \/ death < Z.of_nat (List.length c)) ->
   ObjectClassification.cut_to_timespan oc birth death =
   (ObjectClassification.mk (trim_or_keep_empty v birth death)
                            (trim_or_keep_empty c birth death), None)) /\
  (v <> [] -> Z.of_nat (List.length v) <= death ->
   snd (ObjectClassification.cut_to_timespan oc birth death) = Some AssertionError) /\
  (c <> [] -> Z.of_nat (List.length c) <= death ->
   snd (ObjectClassification.cut_to_timespan oc birth death) = Some AssertionError) /\
  (v <> [] -> death < Z.of_nat (List.length v) ->
   Z.of_nat (List.length (trim_or_keep_empty v birth death)) = death - birth + 1) /\
  (c <> [] -> death < Z.of_nat (List.length c) ->
   Z.of_nat (List.length (trim_or_keep_empty c birth death)) = death - birth + 1).
Proof.
  intros Hbd v c. destruct oc as [v0 c0]. simpl in v, c. subst v c.
  assert (Hpre : ObjectClassification.cut_to_timespan
                   (ObjectClassification.mk v0 c0) birth death =
                 match cut_series v0 birth death with
                 | None => (ObjectClassification.mk v0 c0, Some AssertionError)
                 | Some v' =>
                     match cut_series c0 birth death with
                     | None => (ObjectClassification.mk v' c0, Some AssertionError)
                     | Some c' => (ObjectClassification.mk v' c', None)
                     end
                 end).
  { unfold ObjectClassification.cut_to_timespan. simpl.
    replace (0 <=? birth) with true by (symmetry; apply Z.leb_le; lia).
    replace (birth <=? death) with true by (symmetry; apply Z.leb_le; lia).
    reflexivity. }
  rewrite Hpre.
  assert (Hok : forall A (l : list A), (l = [] \/ death < Z.of_nat (List.length l)) ->
                cut_series l birth death = Some (trim_or_keep_empty l birth death)).
  { intros A l [->|Hl]; [reflexivity|].
    destruct l as [|x l']; [reflexivity|]. apply cut_series_in_range; lia. }
  assert (Hlen : forall A (l : list A), l <> [] -> death < Z.of_nat (List.length l) ->
                 Z.of_nat (List.length (trim_or_keep_empty l birth death)) =
                 death - birth + 1).
  { intros A l Hne Hl. destruct l as [|x l']; [congruence|].
    apply py_slice_window_length; lia. }
  split; [|split; [|split; [|split]]].
  - intros Hv Hc. rewrite (Hok _ v0 Hv), (Hok _ c0 Hc). reflexivity.
  - intros Hne Hl. rewrite (cut_series_short v0 birth death Hne Hl). reflexivity.
  - intros Hne Hl. destruct (cut_series v0 birth death); [|reflexivity].
    rewrite (cut_series_short c0 birth death Hne Hl). reflexivity.
  - apply Hlen.
  - apply Hlen.
Qed.

(** Five labels, an empty confidence, cut to [[1, 2]]: two labels, no
    confidence. *)
Lemma classification_cut_independent_witness :
  ObjectClassification.cut_to_timespan (ObjectClassification.mk [1; 2; 3; 4; 5] []) 1 2 =
  (ObjectClassification.mk [2; 3] [], None).
Proof.
  exact (proj1 (classification_cut_independent
                  (ObjectClassification.mk [1; 2; 3; 4; 5] []) 1 2 ltac:(lia))
               ltac:(simpl; lia) (or_introl eq_refl)).
Defined.

(** ** C9: [SettingsGetter.set] *)

(** C9: overriding settings fields with [SettingsGetter.set] (distinct
    keyword names, all of them declared settings fields) raises nothing;
    afterwards a field passed with a non-[None] value holds that value and
    every other field (passed as [None], or not passed) keeps its value. *)
Theorem settings_set_frame (s : Settings.t) (kwargs : list (string * pyobj)) :
  NoDup (map fst kwargs) ->
  (forall k, In k (map fst kwargs) -> In k Settings.fields) ->
  snd (SettingsGetter.set s kwargs) = None /\
  (forall k, lookup k (fst (SettingsGetter.set s kwargs)) =
             match lookup k kwargs with
             | None | Some PyNone => lookup k s
             | Some v => Some v
             end).
Proof.
  revert s. induction kwargs as [|[k0 v0] kw IH]; intros s Hnd Hf.
  - split; reflexivity.
  - simpl in Hnd. inversion Hnd as [|? ? Hk0 Hnd']. subst.
    assert (Hf' : forall k, In k (map fst kw) -> In k Settings.fields)
      by (intros k Hk; apply Hf; right; exact Hk).
    assert (Hnone : lookup k0 kw = None) by (apply lookup_not_key; exact Hk0).
    assert (Hset : Settings.setattr s k0 v0 = Ok (dict_set k0 v0 s)).
    { assert (Hin : In k0 Settings.fields) by (apply Hf; left; reflexivity).
      simpl in Hin. destruct Hin as [<-|[<-|[]]]; reflexivity. }
    destruct v0 as [|b|z|str|dct]; simpl;
      [ destruct (IH s Hnd' Hf') as [He Hl]
      | rewrite Hset; destruct (IH (dict_set k0 (PyBool b) s) Hnd' Hf') as [He Hl]
      | rewrite Hset; destruct (IH (dict_set k0 (PyInt z) s) Hnd' Hf') as [He Hl]
      | rewrite Hset; destruct (IH (dict_set k0 (PyStr str) s) Hnd' Hf') as [He Hl]
      | rewrite Hset; destruct (IH (dict_set k0 (PyDict dct) s) Hnd' Hf') as [He Hl] ];
      (split; [exact He|]); intros k; rewrite Hl;
      (destruct (String.eqb_spec k k0);
       [ subst k; rewrite Hnone; try rewrite lookup_dict_set_eq; reflexivity
       | try rewrite lookup_dict_set_neq by assumption; reflexivity ]).
Qed.

Lemma settings_set_frame_witness :
  lookup "ALLOW_MISSING_TL_GROUPS"
    (fst (SettingsGetter.set Settings.default
            [("ALLOW_MISSING_TL_GROUPS", PyBool false);
             ("ALLOW_INCOMPLETE_META_DATA", PyNone)])) = Some (PyBool false) /\
  lookup "ALLOW_INCOMPLETE_META_DATA"
    (fst (SettingsGetter.set Settings.default
            [("ALLOW_MISSING_TL_GROUPS", PyBool false);
             ("ALLOW_INCOMPLETE_META_DATA", PyNone)])) = Some (PyBool true).
Proof.
  assert (Hnd : NoDup (map fst [("ALLOW_MISSING_TL_GROUPS", PyBool false);
                                ("ALLOW_INCOMPLETE_META_DATA", PyNone)])).
  { simpl. constructor; [simpl; intros [H|[]]; discriminate|].
    constructor; [intros []|constructor]. }
  assert (Hf : forall k, In k (map fst [("ALLOW_MISSING_TL_GROUPS", PyBool false);
                                        ("ALLOW_INCOMPLETE_META_DATA", PyNone)]) ->
                         In k Settings.fields) by (intros k Hk; exact Hk).
  destruct (settings_set_frame Settings.default _ Hnd Hf) as [_ Hl].
  split; [rewrite Hl|rewrite Hl]; reflexivity.
Defined.

(** ** C10: raw sequences are sliced without any length check *)

Lemma new_with_raw_agrees (r : Object.fields) rcs age tp coe mc ms (z : Z) :
  Forall2 agree_but_raw
    (Object.new (ObjectFields.with_birth_stamp
                   (ObjectFields.with_raw r rcs age tp coe mc ms) z))
    (Object.new (ObjectFields.with_birth_stamp r z)).
Proof.
  destruct r. simpl.
  repeat (constructor;
          [unfold agree_but_raw; simpl; split;
           [reflexivity | first [left; reflexivity | right; split; reflexivity]] | ]).
  constructor.
Qed.

(** C10: [Object.cut_to_timespan] checks only [death < len] (the length of
    [dist_lateral.val]): whether it raises does not depend on the six raw
    sequences at all; when it completes, each raw sequence is the slice
    [v[birth:death + 1]] of the old one, which has fewer than
    [death - birth + 1] elements when the sequence had at most [death]
    elements, and none when it had at most [birth]. *)
Theorem cut_raw_sequences_unchecked (r : Object.fields) (birth death : Z) :
  0 <= birth <= death ->
  (forall rcs age tp coe mc ms,
     snd (Object.cut_to_timespan
            (Object.new (ObjectFields.with_raw r rcs age tp coe mc ms)) birth death) =
     snd (Object.cut_to_timespan (Object.new r) birth death)) /\
  (snd (Object.cut_to_timespan (Object.new r) birth death) = None ->
   let o' := fst (Object.cut_to_timespan (Object.new r) birth death) in
   lookup "rcs" o' = Some (PArray (py_slice (Object.rcs r) birth (death + 1))) /\
   lookup "age" o' = Some (PArray (py_slice (Object.age r) birth (death + 1))) /\
   lookup "tracking_point" o' =
     Some (PList (py_slice (Object.tracking_point r) birth (death + 1))) /\
   lookup "confidence_of_existence" o' =
     Some (PArray (py_slice (Object.confidence_of_existence r) birth (death + 1))) /\
   lookup "movement_classification" o' =
     Some (PList (py_slice (Object.movement_classification r) birth (death + 1))) /\
   lookup "meas_state" o' =
     Some (PList (py_slice (Object.meas_state r) birth (death + 1)))) /\
  (forall A (l : list A), Z.of_nat (List.length l) <= death ->
     Z.of_nat (List.length (py_slice l birth (death + 1))) < death - birth + 1 /\
     (Z.of_nat (List.length l) <= birth -> py_slice l birth (death + 1) = [])).
Proof.
  intros Hbd. split; [|split].
  - intros rcs age tp coe mc ms. rewrite !cut_new_unfold.
    cbn [Object.dist_lateral Object.birth_stamp ObjectFields.with_raw].
    destruct (_ && _ && _); [|reflexivity].
    apply cut_attrs_error_ignores_raw. apply new_with_raw_agrees.
  - rewrite cut_new_unfold.
    destruct (_ && _ && _); [|discriminate].
    intros Hok. cbv zeta. rewrite (cut_attrs_no_error _ _ _ Hok).
    rewrite !(lookup_map_values (fun v => fst (Object.cut_attr birth death v))).
    destruct r. repeat split; reflexivity.
  - intros A l Hl. split.
    + rewrite py_slice_length by lia. lia.
    + intros Hb. apply length_zero_iff_nil. rewrite py_slice_length by lia. lia.
Qed.

(** [dist_lateral] has four samples, [rcs] only two: the cut [(1, 3)]
    completes and leaves one [rcs] sample. *)
Lemma cut_raw_sequences_unchecked_witness :
  let r := ObjectFields.with_raw (uniform_sample 0 4) (zeros 2) (zeros 4)
             (repeat 0 4) (zeros 4) (repeat 0 4) (repeat 0 4) in
  snd (Object.cut_to_timespan (Object.new r) 1 3) = None /\
  lookup "rcs" (fst (Object.cut_to_timespan (Object.new r) 1 3)) =
    Some (PArray (zeros 1)).
Proof.
  intros r.
  assert (Hok : snd (Object.cut_to_timespan (Object.new r) 1 3) = None).
  { unfold r. rewrite (proj1 (cut_raw_sequences_unchecked (uniform_sample 0 4) 1 3 ltac:(lia))).
    reflexivity. }
  split; [exact Hok|].
  exact (proj1 (proj1 (proj2 (cut_raw_sequences_unchecked r 1 3 ltac:(lia))) Hok)).
Defined.

(** ** C1: round trip through the store *)

Lemma has_slash_append (p k : string) :
  Store.has_slash (p ++ String "/" k) = true.
Proof.
  induction p as [|c p IH]; simpl.
  - reflexivity.
  - rewrite IH. apply orb_true_r.
Qed.

Lemma last_component_append (p k : string) :
  Store.has_slash k = false -> Store.last_component (p ++ String "/" k) = k.
Proof.
  intros Hk. induction p as [|c p IH]; simpl.
  - rewrite Hk. reflexivity.
  - rewrite has_slash_append. exact IH.
Qed.

Lemma last_component_child_path (p k : string) :
  Store.has_slash k = false -> Store.last_component (Store.child_path p k) = k.
Proof.
  intros Hk. unfold Store.child_path.
  destruct (String.eqb p "/").
  - exact (last_component_append "" k Hk).
  - exact (last_component_append p k Hk).
Qed.

Lemma with_id_same (r : Object.fields) :
  ObjectFields.with_id r (Object.id r) = r.
Proof. destruct r; reflexivity. Qed.

(** The integer types numpy gives a Python int. *)
Lemma np_int_int64 (z : Z) :
  - 2 ^ 63 <= z < 2 ^ 63 -> Store.np_int z = Some (Store.AInt64 z).
Proof.
  intros H. unfold Store.np_int.
  replace ((- 2 ^ 63 <=? z) && (z <? 2 ^ 63)) with true; [reflexivity|].
  symmetry. apply andb_true_iff. split; [apply Z.leb_le|apply Z.ltb_lt]; lia.
Qed.

Lemma np_int_uint64 (z : Z) :
  2 ^ 63 <= z < 2 ^ 64 -> Store.np_int z = Some (Store.AUInt64 z).
Proof.
  intros H. unfold Store.np_int.
  replace ((- 2 ^ 63 <=? z) && (z <? 2 ^ 63)) with false
    by (symmetry; apply andb_false_iff; right; apply Z.ltb_ge; lia).
  replace ((2 ^ 63 <=? z) && (z <? 2 ^ 64)) with true; [reflexivity|].
  symmetry. apply andb_true_iff. split; [apply Z.leb_le|apply Z.ltb_lt]; lia.
Qed.

Lemma np_int_range (z : Z) :
  - 2 ^ 63 <= z < 2 ^ 64 -> exists a, Store.np_int z = Some a.
Proof.
  intros H. destruct (Z.lt_ge_cases z (2 ^ 63)) as [Hz|Hz].
  - exists (Store.AInt64 z). apply np_int_int64. lia.
  - exists (Store.AUInt64 z). apply np_int_uint64. lia.
Qed.

Lemma astype_int_uint64 (z : Z) :
  2 ^ 63 <= z -> Store.astype_int (Store.AUInt64 z) = z - 2 ^ 64.
Proof.
  intros H. unfold Store.astype_int.
  replace (z <? 2 ^ 63) with false; [reflexivity|].
  symmetry. apply Z.ltb_ge. exact H.
Qed.

Lemma bind_ret {A B} (a : A) (f : A -> M B) : bind (ret a) f = f a.
Proof. unfold bind, ret. destruct (f a). reflexivity. Qed.

Lemma get_int_birth_stamp (r : Object.fields) :
  Object.get_int (Object.new r) "birth_stamp" = ret (Object.birth_stamp r).
Proof. reflexivity. Qed.

(** The first line of [Object.to_hdf5] for an [Object] built from [r]:
    rewrite the type numpy gives [birth_stamp] with the equation [Hnp]. *)
Ltac write_birth_stamp Hnp :=
  unfold Object.to_hdf5; rewrite ?get_int_birth_stamp, ?bind_ret; cbv beta;
  unfold Store.attrs_create; rewrite ?Hnp.

(** Writing with [to_hdf5] into a fresh node at [path] and reading it back
    with validation gives the object back, its [id] replaced by the last
    component of [path], when [birth_stamp] is stored as an int64. *)
Lemma roundtrip_up_to_id (cfg : Settings.t) (args : list (string * pyobj))
    (r : Object.fields) (path : string) :
  lookup "hdf5_compress_args" cfg = Some (PyDict args) ->
  - 2 ^ 63 <= Object.birth_stamp r < 2 ^ 63 ->
  fst (ObjectClassification.new
         (ObjectClassification.val (Object.object_classification r))
         (ObjectClassification.confidence (Object.object_classification r))) =
    Ok (Object.object_classification r) ->
  fst (g <- Object.to_hdf5 cfg (Object.new r) (Store.fresh path) ;;
       Object.from_hdf5 g true) =
  Ok (Object.new (ObjectFields.with_id r (Store.last_component path))).
Proof.
  intros Hcfg Hbs Hoc.
  assert (Hargs : SettingsGetter.hdf5_compress_args cfg = ret (PyDict args))
    by (unfold SettingsGetter.hdf5_compress_args, Settings.getattr;
        rewrite Hcfg; reflexivity).
  pose proof (np_int_int64 _ Hbs) as Hnp. write_birth_stamp Hnp.
  destruct r as [id bs [h1 h2] [w1 w2] [he1 he2] [le1 le2] rcs age tp coe mc ms
                 [dlo1 dlo2] [dla1 dla2] [dz1 dz2] [rvlo1 rvlo2] [rvla1 rvla2]
                 [avlo1 avlo2] [avla1 avla2] [ralo1 ralo2] [rala1 rala2]
                 [aalo1 aalo2] [aala1 aala2] [ov oc]].
  simpl in Hoc.
  assert (Hf : forallb ObjectClassification.in_unit oc = true).
  { unfold ObjectClassification.new in Hoc.
    rewrite check_confidence_values_forallb in Hoc.
    destruct (forallb ObjectClassification.in_unit oc); [reflexivity|discriminate]. }
  pose proof (new_in_range ov oc Hf) as Hnew.
  unfold Object.write_valvar, Object.write_data,
    ValVar.to_hdf5, ObjectClassification.to_hdf5,
    Object.from_hdf5, ObjectClassification.from_hdf5.
  rewrite Hargs.
  cbv -[ObjectClassification.new].
  rewrite Hnew.
  cbv. reflexivity.
Qed.

(** With the repository's own [Settings] (no [hdf5_compress_args] field),
    [Object.to_hdf5] into a fresh node raises [AttributeError] on its first
    dataset, unless [birth_stamp] has no HDF5 integer type, when the
    attribute write raises [TypeError] first. *)
Lemma to_hdf5_repo_settings_fail (r : Object.fields) (path : string) :
  fst (Object.to_hdf5 Settings.default (Object.new r) (Store.fresh path)) =
  match Store.np_int (Object.birth_stamp r) with
  | Some _ => Err (AttributeError "hdf5_compress_args")
  | None => Err TypeError
  end.
Proof.
  destruct (Store.np_int (Object.birth_stamp r)) as [a|] eqn:Hnp;
    write_birth_stamp Hnp; destruct r; cbv; reflexivity.
Qed.

(** C1 (as amended): given a configuration that supplies
    [hdf5_compress_args], an [Object] whose classification passes validation
    and whose [birth_stamp] fits in int64, written with [to_hdf5] into a
    fresh node whose own name is the object's [id] (a child of any parent
    path; the [id] has no slash) and read back with
    [from_hdf5(validate=True)], is equal to the original in every field;
    written into a fresh node with any other path, it is equal in every
    field except [id], which becomes the node's own name. *)
Theorem roundtrip_named_by_id (cfg : Settings.t) (args : list (string * pyobj))
    (r : Object.fields) (parent : string) :
  lookup "hdf5_compress_args" cfg = Some (PyDict args) ->
  Store.has_slash (Object.id r) = false ->
  - 2 ^ 63 <= Object.birth_stamp r < 2 ^ 63 ->
  fst (ObjectClassification.new
         (ObjectClassification.val (Object.object_classification r))
         (ObjectClassification.confidence (Object.object_classification r))) =
    Ok (Object.object_classification r) ->
  fst (g <- Object.to_hdf5 cfg (Object.new r)
              (Store.fresh (Store.child_path parent (Object.id r))) ;;
       Object.from_hdf5 g true) =
  Ok (Object.new r) /\
  (forall path : string,
     fst (g <- Object.to_hdf5 cfg (Object.new r) (Store.fresh path) ;;
          Object.from_hdf5 g true) =
     Ok (Object.new (ObjectFields.with_id r (Store.last_component path)))).
Proof.
  intros Hcfg Hid Hbs Hoc. split.
  - rewrite (roundtrip_up_to_id cfg args r _ Hcfg Hbs Hoc).
    rewrite (last_component_child_path parent (Object.id r) Hid).
    rewrite with_id_same. reflexivity.
  - intros path. exact (roundtrip_up_to_id cfg args r path Hcfg Hbs Hoc).
Qed.

(** Three objects that do not come back equal: the default object (id
    ["RU-1"]) written into a node named ["obj7"] comes back with id
    ["obj7"]; a [birth_stamp] of [2 ^ 63] is stored as a uint64 and comes
    back as [- 2 ^ 63]; a [birth_stamp] of [2 ^ 64] makes [to_hdf5] raise
    [TypeError]. *)
Lemma roundtrip_counterexample :
  fst (g <- Object.to_hdf5 cfg_gzip (Object.new Object.default)
              (Store.fresh "/obj7") ;;
       Object.from_hdf5 g true) <>
  Ok (Object.new Object.default) /\
  fst (g <- Object.to_hdf5 cfg_gzip (Object.new (uniform_sample (2 ^ 63) 1))
              (Store.fresh "/RU-1") ;;
       Object.from_hdf5 g true) =
  Ok (Object.new (uniform_sample (- 2 ^ 63) 1)) /\
  Ok (Object.new (uniform_sample (- 2 ^ 63) 1)) <>
  Ok (Object.new (uniform_sample (2 ^ 63) 1)) /\
  fst (g <- Object.to_hdf5 cfg_gzip (Object.new (uniform_sample (2 ^ 64) 1))
              (Store.fresh "/RU-1") ;;
       Object.from_hdf5 g true) = Err TypeError.
Proof.
  split; [vm_compute; congruence|].
  split; [vm_compute; reflexivity|].
  split; [vm_compute; congruence|].
  vm_compute. reflexivity.
Qed.

Lemma roundtrip_named_by_id_witness :
  fst (g <- Object.to_hdf5 cfg_gzip (Object.new (uniform_sample (2 ^ 63 - 1) 3))
              (Store.fresh (Store.child_path "/objects" "RU-1")) ;;
       Object.from_hdf5 g true) =
  Ok (Object.new (uniform_sample (2 ^ 63 - 1) 3)) /\
  (forall path : string,
     fst (g <- Object.to_hdf5 cfg_gzip (Object.new (uniform_sample (2 ^ 63 - 1) 3))
                 (Store.fresh path) ;;
          Object.from_hdf5 g true) =
     Ok (Object.new (ObjectFields.with_id (uniform_sample (2 ^ 63 - 1) 3)
                       (Store.last_component path)))).
Proof.
  apply (roundtrip_named_by_id cfg_gzip
           [("compression", PyStr "gzip"); ("compression_opts", PyInt 4)]
           (uniform_sample (2 ^ 63 - 1) 3) "/objects").
  - reflexivity.
  - reflexivity.
  - split; vm_compute; congruence.
  - vm_compute. reflexivity.
Defined.

(** * Further properties of the code *)

(** ** Slicing with non-negative bounds, and slices of slices *)

Lemma py_slice_nonneg {A} (l : list A) (lo hi : Z) :
  0 <= lo -> 0 <= hi ->
  py_slice l lo hi = firstn (Z.to_nat hi - Z.to_nat lo) (skipn (Z.to_nat lo) l).
Proof.
  intros Hlo Hhi. unfold py_slice, norm_index.
  destruct (Z.ltb_spec lo 0); [lia|]. destruct (Z.ltb_spec hi 0); [lia|].
  destruct (Z.le_gt_cases lo (Z.of_nat (List.length l))).
  - rewrite (Z.min_l lo) by lia.
    destruct (Z.le_gt_cases hi (Z.of_nat (List.length l))).
    + rewrite (Z.min_l hi) by lia. f_equal. lia.
    + rewrite (Z.min_r hi) by lia.
      rewrite !firstn_all2; [reflexivity| |]; rewrite length_skipn; lia.
  - rewrite (Z.min_r lo) by lia.
    rewrite !skipn_all2 by lia. rewrite !firstn_nil. reflexivity.
Qed.

(** [l[b1:d1+1][b2:d2+1] == l[b1+b2:b1+d2+1]] for a second window inside
    the first, whatever the length of [l]. *)
Lemma py_slice_compose {A} (l : list A) (b1 d1 b2 d2 : Z) :
  0 <= b1 -> 0 <= b2 -> b2 <= d2 -> d2 <= d1 - b1 ->
  py_slice (py_slice l b1 (d1 + 1)) b2 (d2 + 1) = py_slice l (b1 + b2) (b1 + d2 + 1).
Proof.
  intros H1 H2 H3 H4. rewrite !py_slice_nonneg by lia.
  rewrite skipn_firstn_comm, firstn_firstn, skipn_skipn.
  f_equal; [lia|]. f_equal. lia.
Qed.

Lemma cut_series_compose {A} (l l1 : list A) (b1 d1 b2 d2 : Z) :
  0 <= b1 -> 0 <= b2 -> b2 <= d2 -> d2 <= d1 - b1 ->
  cut_series l b1 d1 = Some l1 ->
  cut_series l1 b2 d2 = cut_series l (b1 + b2) (b1 + d2).
Proof.
  intros H1 H2 H3 H4 Hc.
  rewrite (cut_series_cases l) in Hc by lia.
  rewrite (cut_series_cases l) by lia.
  destruct l as [|x l']; [injection Hc as <-; reflexivity|].
  destruct (Z.ltb_spec d1 (Z.of_nat (List.length (x :: l')))) as [Hd|]; [|discriminate].
  injection Hc as <-.
  destruct (Z.ltb_spec (b1 + d2) (Z.of_nat (List.length (x :: l')))); [|lia].
  rewrite cut_series_in_range.
  - rewrite py_slice_compose by lia. reflexivity.
  - lia.
  - rewrite py_slice_window_length; lia.
Qed.

Lemma cut_series_compose_some {A} (l l1 : list A) (b1 d1 b2 d2 : Z) :
  0 <= b1 -> 0 <= b2 -> b2 <= d2 -> d2 <= d1 - b1 ->
  cut_series l b1 d1 = Some l1 ->
  exists l2, cut_series l (b1 + b2) (b1 + d2) = Some l2.
Proof.
  intros H1 H2 H3 H4 Hc.
  rewrite (cut_series_cases l) in Hc by lia.
  rewrite (cut_series_cases l) by lia.
  destruct l as [|x l']; [eexists; reflexivity|].
  destruct (Z.ltb_spec d1 (Z.of_nat (List.length (x :: l')))); [|discriminate].
  destruct (Z.ltb_spec (b1 + d2) (Z.of_nat (List.length (x :: l')))); [|lia].
  eexists; reflexivity.
Qed.

(** ** Cutting twice *)

Lemma valvar_cut_compose (v v1 : ValVar.t) (b1 d1 b2 d2 : Z) :
  0 <= b2 -> b2 <= d2 -> d2 <= d1 - b1 ->
  ValVar.cut_to_timespan v b1 d1 = (v1, None) ->
  ValVar.cut_to_timespan v1 b2 d2 = ValVar.cut_to_timespan v (b1 + b2) (b1 + d2).
Proof.
  intros H2 H3 H4 Hc. destruct v as [vl vr].
  unfold ValVar.cut_to_timespan in Hc |- *. simpl in Hc |- *.
  destruct (Z.leb_spec 0 b1); [|discriminate]. destruct (Z.leb_spec b1 d1); [|discriminate].
  simpl in Hc.
  destruct (cut_series vl b1 d1) as [l|] eqn:El; [|discriminate].
  destruct (cut_series vr b1 d1) as [w|] eqn:Er; [|discriminate].
  injection Hc as <-. simpl.
  destruct (Z.leb_spec 0 b2); [|lia]. destruct (Z.leb_spec b2 d2); [|lia].
  destruct (Z.leb_spec 0 (b1 + b2)); [|lia]. destruct (Z.leb_spec (b1 + b2) (b1 + d2)); [|lia].
  simpl.
  rewrite (cut_series_compose vl l b1 d1 b2 d2) by assumption.
  destruct (cut_series_compose_some vl l b1 d1 b2 d2) as [vl2 Evl]; try assumption.
  rewrite Evl.
  rewrite (cut_series_compose vr w b1 d1 b2 d2) by assumption.
  destruct (cut_series_compose_some vr w b1 d1 b2 d2) as [vr2 Evr]; try assumption.
  rewrite Evr.
  reflexivity.
Qed.

Lemma classification_cut_compose_aux (c c1 : ObjectClassification.t) (b1 d1 b2 d2 : Z) :
  0 <= b2 -> b2 <= d2 -> d2 <= d1 - b1 ->
  ObjectClassification.cut_to_timespan c b1 d1 = (c1, None) ->
  ObjectClassification.cut_to_timespan c1 b2 d2 =
  ObjectClassification.cut_to_timespan c (b1 + b2) (b1 + d2).
Proof.
  intros H2 H3 H4 Hc. destruct c as [cl cc].
  unfold ObjectClassification.cut_to_timespan in Hc |- *. simpl in Hc |- *.
  destruct (Z.leb_spec 0 b1); [|discriminate]. destruct (Z.leb_spec b1 d1); [|discriminate].
  simpl in Hc.
  destruct (cut_series cl b1 d1) as [l|] eqn:El; [|discriminate].
  destruct (cut_series cc b1 d1) as [w|] eqn:Er; [|discriminate].
  injection Hc as <-. simpl.
  destruct (Z.leb_spec 0 b2); [|lia]. destruct (Z.leb_spec b2 d2); [|lia].
  destruct (Z.leb_spec 0 (b1 + b2)); [|lia]. destruct (Z.leb_spec (b1 + b2) (b1 + d2)); [|lia].
  simpl.
  rewrite (cut_series_compose cl l b1 d1 b2 d2) by assumption.
  destruct (cut_series_compose_some cl l b1 d1 b2 d2) as [cl2 Ecl]; try assumption.
  rewrite Ecl.
  rewrite (cut_series_compose cc w b1 d1 b2 d2) by assumption.
  destruct (cut_series_compose_some cc w b1 d1 b2 d2) as [cc2 Ecc]; try assumption.
  rewrite Ecc.
  reflexivity.
Qed.

Lemma cut_attr_compose (v v1 : pyval) (b1 d1 b2 d2 : Z) :
  0 <= b1 -> 0 <= b2 -> b2 <= d2 -> d2 <= d1 - b1 ->
  Object.cut_attr b1 d1 v = (v1, None) ->
  Object.cut_attr b2 d2 v1 = Object.cut_attr (b1 + b2) (b1 + d2) v.
Proof.
  intros H1 H2 H3 H4 Hc.
  destruct v as [s|z|a|l|vv|c]; simpl in Hc.
  - injection Hc as <-. reflexivity.
  - injection Hc as <-. reflexivity.
  - injection Hc as <-. simpl. rewrite py_slice_compose by assumption. reflexivity.
  - injection Hc as <-. simpl. rewrite py_slice_compose by assumption. reflexivity.
  - destruct (ValVar.cut_to_timespan vv b1 d1) as [vv' e] eqn:E.
    injection Hc as <- ->. simpl.
    rewrite (valvar_cut_compose vv vv' b1 d1 b2 d2 H2 H3 H4 E). reflexivity.
  - destruct (ObjectClassification.cut_to_timespan c b1 d1) as [c' e] eqn:E.
    injection Hc as <- ->. simpl.
    rewrite (classification_cut_compose_aux c c' b1 d1 b2 d2 H2 H3 H4 E). reflexivity.
Qed.

Lemma valvar_cut_compose_ok (v v1 : ValVar.t) (b1 d1 b2 d2 : Z) :
  0 <= b2 -> b2 <= d2 -> d2 <= d1 - b1 ->
  ValVar.cut_to_timespan v b1 d1 = (v1, None) ->
  snd (ValVar.cut_to_timespan v (b1 + b2) (b1 + d2)) = None.
Proof.
  intros H2 H3 H4 Hc. destruct v as [vl vr].
  unfold ValVar.cut_to_timespan in Hc |- *. simpl in Hc |- *.
  destruct (Z.leb_spec 0 b1); [|discriminate]. destruct (Z.leb_spec b1 d1); [|discriminate].
  simpl in Hc.
  destruct (cut_series vl b1 d1) as [l|] eqn:El; [|discriminate].
  destruct (cut_series vr b1 d1) as [w|] eqn:Er; [|discriminate].
  destruct (Z.leb_spec 0 (b1 + b2)); [|lia]. destruct (Z.leb_spec (b1 + b2) (b1 + d2)); [|lia].
  simpl.
  destruct (cut_series_compose_some vl l b1 d1 b2 d2) as [l2 E1]; try assumption.
  destruct (cut_series_compose_some vr w b1 d1 b2 d2) as [w2 E2]; try assumption.
  rewrite E1, E2. reflexivity.
Qed.

Lemma classification_cut_compose_ok (c c1 : ObjectClassification.t) (b1 d1 b2 d2 : Z) :
  0 <= b2 -> b2 <= d2 -> d2 <= d1 - b1 ->
  ObjectClassification.cut_to_timespan c b1 d1 = (c1, None) ->
  snd (ObjectClassification.cut_to_timespan c (b1 + b2) (b1 + d2)) = None.
Proof.
  intros H2 H3 H4 Hc. destruct c as [cl cc].
  unfold ObjectClassification.cut_to_timespan in Hc |- *. simpl in Hc |- *.
  destruct (Z.leb_spec 0 b1); [|discriminate]. destruct (Z.leb_spec b1 d1); [|discriminate].
  simpl in Hc.
  destruct (cut_series cl b1 d1) as [l|] eqn:El; [|discriminate].
  destruct (cut_series cc b1 d1) as [w|] eqn:Er; [|discriminate].
  destruct (Z.leb_spec 0 (b1 + b2)); [|lia]. destruct (Z.leb_spec (b1 + b2) (b1 + d2)); [|lia].
  simpl.
  destruct (cut_series_compose_some cl l b1 d1 b2 d2) as [l2 E1]; try assumption.
  destruct (cut_series_compose_some cc w b1 d1 b2 d2) as [w2 E2]; try assumption.
  rewrite E1, E2. reflexivity.
Qed.

Lemma cut_attr_compose_ok (v v1 : pyval) (b1 d1 b2 d2 : Z) :
  0 <= b2 -> b2 <= d2 -> d2 <= d1 - b1 ->
  Object.cut_attr b1 d1 v = (v1, None) ->
  snd (Object.cut_attr (b1 + b2) (b1 + d2) v) = None.
Proof.
  intros H2 H3 H4 Hc.
  destruct v as [s|z|a|l|vv|c]; simpl in Hc |- *; try reflexivity.
  - destruct (ValVar.cut_to_timespan vv b1 d1) as [vv' e] eqn:E.
    injection Hc as <- ->.
    pose proof (valvar_cut_compose_ok vv vv' b1 d1 b2 d2 H2 H3 H4 E) as Hok.
    destruct (ValVar.cut_to_timespan vv (b1 + b2) (b1 + d2)). exact Hok.
  - destruct (ObjectClassification.cut_to_timespan c b1 d1) as [c' e] eqn:E.
    injection Hc as <- ->.
    pose proof (classification_cut_compose_ok c c' b1 d1 b2 d2 H2 H3 H4 E) as Hok.
    destruct (ObjectClassification.cut_to_timespan c (b1 + b2) (b1 + d2)). exact Hok.
Qed.

Lemma cut_attrs_compose (o o1 : Object.t) (b1 d1 b2 d2 : Z) :
  0 <= b1 -> 0 <= b2 -> b2 <= d2 -> d2 <= d1 - b1 ->
  Object.cut_attrs b1 d1 o = (o1, None) ->
  Object.cut_attrs b2 d2 o1 = Object.cut_attrs (b1 + b2) (b1 + d2) o.
Proof.
  intros H1 H2 H3 H4. revert o1.
  induction o as [|[k v] o IH]; intros o1 Hc; simpl in Hc.
  - injection Hc as <-. reflexivity.
  - destruct (Object.cut_attr b1 d1 v) as [v1 e] eqn:Ev.
    destruct e as [e|]; [discriminate|].
    destruct (Object.cut_attrs b1 d1 o) as [o1' e'] eqn:Eo.
    injection Hc as <- ->. simpl.
    rewrite (cut_attr_compose v v1 b1 d1 b2 d2 H1 H2 H3 H4 Ev).
    pose proof (cut_attr_compose_ok v v1 b1 d1 b2 d2 H2 H3 H4 Ev) as Hok.
    destruct (Object.cut_attr (b1 + b2) (b1 + d2) v) as [v2 e2].
    simpl in Hok. subst e2.
    rewrite (IH o1' eq_refl). reflexivity.
Qed.

Lemma cut_attrs_dict_set_int (b d : Z) (o : Object.t) (k : string) (z : Z) :
  snd (Object.cut_attrs b d o) = None ->
  Object.cut_attrs b d (dict_set k (PInt z) o) =
  (dict_set k (PInt z) (fst (Object.cut_attrs b d o)), None).
Proof.
  induction o as [|[k' v'] o IH]; intros Hc; [reflexivity|].
  simpl in Hc.
  destruct (Object.cut_attr b d v') as [v'' e] eqn:Ev.
  destruct e as [e|]; [discriminate|].
  destruct (Object.cut_attrs b d o) as [o' e'] eqn:Eo. simpl in Hc. subst e'.
  simpl. rewrite Ev, Eo. simpl.
  destruct (String.eqb k k') eqn:Ek.
  - simpl. rewrite Eo. reflexivity.
  - simpl. rewrite Ev. rewrite IH by reflexivity.
    reflexivity.
Qed.

Lemma dict_set_twice {V} (k : string) (v1 v2 : V) d :
  dict_set k v2 (dict_set k v1 d) = dict_set k v2 d.
Proof.
  induction d as [|[k' v'] d IH]; simpl.
  - rewrite String.eqb_refl. reflexivity.
  - destruct (String.eqb k k') eqn:E; simpl.
    + rewrite String.eqb_refl. reflexivity.
    + rewrite E, IH. reflexivity.
Qed.

Lemma lookup_cut_attrs (b d : Z) (o : Object.t) (k : string) :
  snd (Object.cut_attrs b d o) = None ->
  lookup k (fst (Object.cut_attrs b d o)) =
  option_map (fun v => fst (Object.cut_attr b d v)) (lookup k o).
Proof.
  intros H. rewrite (cut_attrs_no_error b d o H).
  exact (lookup_map_values (fun v => fst (Object.cut_attr b d v)) k o).
Qed.

(** A successful cut passed its three assertions and ran the loop. *)
Lemma cut_new_ok (r : Object.fields) (b d : Z) :
  snd (Object.cut_to_timespan (Object.new r) b d) = None ->
  0 <= b /\ b <= d /\
  d < Z.of_nat (List.length (ValVar.val (Object.dist_lateral r))) /\
  Object.cut_to_timespan (Object.new r) b d =
  Object.cut_attrs b d
    (Object.new (ObjectFields.with_birth_stamp r (Object.birth_stamp r + b))).
Proof.
  rewrite cut_new_unfold.
  destruct ((0 <=? b) && (b <=? d) &&
            (d <? Z.of_nat (List.length (ValVar.val (Object.dist_lateral r))))) eqn:C;
    [|discriminate].
  intros _. rewrite !andb_true_iff, !Z.leb_le, Z.ltb_lt in C.
  repeat split; lia.
Qed.

Lemma valvar_cut_val (v : ValVar.t) (b d : Z) :
  0 <= b <= d -> d < Z.of_nat (List.length (ValVar.val v)) ->
  ValVar.val (fst (ValVar.cut_to_timespan v b d)) = py_slice (ValVar.val v) b (d + 1).
Proof.
  intros Hb Hd. destruct v as [vl vr]. simpl in Hd.
  unfold ValVar.cut_to_timespan. simpl.
  destruct (Z.leb_spec 0 b); [|lia]. destruct (Z.leb_spec b d); [|lia]. simpl.
  rewrite cut_series_in_range by assumption.
  destruct (cut_series vr b d); reflexivity.
Qed.

Lemma len_after_cut (r : Object.fields) (b d : Z) :
  snd (Object.cut_to_timespan (Object.new r) b d) = None ->
  Object.len (fst (Object.cut_to_timespan (Object.new r) b d)) = Ok (d - b + 1).
Proof.
  intros H. pose proof H as H'.
  apply cut_new_ok in H' as (Hb & Hbd & Hd & E). rewrite E in H |- *.
  unfold Object.len.
  rewrite (lookup_cut_attrs b d _ "dist_lateral" H), lookup_new_dist_lateral. simpl.
  pose proof (valvar_cut_val (Object.dist_lateral r) b d (conj Hb Hbd) Hd) as Hv.
  destruct (ValVar.cut_to_timespan (Object.dist_lateral r) b d) as [vv e]. simpl in *.
  rewrite Hv, py_slice_window_length by lia. reflexivity.
Qed.

Lemma birth_stamp_after_cut (r : Object.fields) (b d : Z) :
  snd (Object.cut_to_timespan (Object.new r) b d) = None ->
  lookup "birth_stamp" (fst (Object.cut_to_timespan (Object.new r) b d)) =
  Some (PInt (Object.birth_stamp r + b)).
Proof.
  intros H. pose proof H as H'.
  apply cut_new_ok in H' as (_ & _ & _ & E). rewrite E in H |- *.
  rewrite (lookup_cut_attrs b d _ "birth_stamp" H), lookup_new_birth_stamp.
  reflexivity.
Qed.

Lemma with_birth_stamp_same (r : Object.fields) :
  ObjectFields.with_birth_stamp r (Object.birth_stamp r) = r.
Proof. destruct r; reflexivity. Qed.

(** ** [Object.cut_to_timespan] *)

(** Cutting twice is cutting once: after a successful cut to
    [[b1, d1]], a cut to [[b2, d2]] inside the new local window
    ([0 <= b2 <= d2 <= d1 - b1]) gives the same result, exception included,
    as one cut of the original object to [[b1 + b2, b1 + d2]]. *)
Theorem cut_to_timespan_compose (r : Object.fields) (b1 d1 b2 d2 : Z) :
  snd (Object.cut_to_timespan (Object.new r) b1 d1) = None ->
  0 <= b2 -> b2 <= d2 -> d2 <= d1 - b1 ->
  Object.cut_to_timespan (fst (Object.cut_to_timespan (Object.new r) b1 d1)) b2 d2 =
  Object.cut_to_timespan (Object.new r) (b1 + b2) (b1 + d2).
Proof.
  intros H Hb2 Hbd Hd.
  pose proof (len_after_cut r b1 d1 H) as Hlen.
  pose proof (birth_stamp_after_cut r b1 d1 H) as Hbs.
  pose proof H as H'. apply cut_new_ok in H' as (Hb1 & Hbd1 & Hd1 & E).
  unfold Object.cut_to_timespan at 1.
  rewrite Hlen, Hbs.
  destruct (Z.geb_spec b2 0); [|lia]. destruct (Z.leb_spec b2 d2); [|lia].
  destruct (Z.gtb_spec (d1 - b1 + 1) d2); [|lia]. cbn [negb].
  rewrite E in H |- *.
  rewrite new_with_birth_stamp in H |- *.
  destruct (Object.cut_attrs b1 d1
              (dict_set "birth_stamp" (PInt (Object.birth_stamp r + b1)) (Object.new r)))
    as [o1 e] eqn:E1.
  simpl in H. subst e. cbn [fst].
  pose proof (cut_attrs_dict_set_int b1 d1
                (dict_set "birth_stamp" (PInt (Object.birth_stamp r + b1)) (Object.new r))
                "birth_stamp" (Object.birth_stamp r + b1 + b2)) as Hset.
  rewrite dict_set_twice, E1 in Hset. cbn [fst snd] in Hset.
  rewrite (cut_attrs_compose _ _ b1 d1 b2 d2 Hb1 Hb2 Hbd Hd (Hset eq_refl)).
  rewrite cut_new_unfold.
  replace ((0 <=? b1 + b2) && (b1 + b2 <=? b1 + d2) &&
           (b1 + d2 <? Z.of_nat (List.length (ValVar.val (Object.dist_lateral r)))))
    with true by (symmetry; rewrite !andb_true_iff, !Z.leb_le, Z.ltb_lt; lia).
  rewrite new_with_birth_stamp, Z.add_assoc. reflexivity.
Qed.

Lemma cut_to_timespan_compose_witness :
  let o := Object.new (uniform_sample 10 6) in
  Object.cut_to_timespan (fst (Object.cut_to_timespan o 1 4)) 1 2 =
  Object.cut_to_timespan o 2 3.
Proof.
  apply (cut_to_timespan_compose (uniform_sample 10 6) 1 4 1 2);
    [vm_compute; reflexivity | lia | lia | lia].
Defined.

(** After a successful cut to [[birth, death]], the object covers the
    global time steps [[birth_stamp + birth, birth_stamp + death]]: its
    [end] is [birth_stamp + death + 1] and its [len] is
    [death - birth + 1]. *)
Theorem end_after_cut (r : Object.fields) (birth death : Z) :
  snd (Object.cut_to_timespan (Object.new r) birth death) = None ->
  Object.end_ (fst (Object.cut_to_timespan (Object.new r) birth death)) =
    Ok (Object.birth_stamp r + death + 1) /\
  Object.len (fst (Object.cut_to_timespan (Object.new r) birth death)) =
    Ok (death - birth + 1).
Proof.
  intros H. pose proof (len_after_cut r birth death H) as Hlen.
  split; [|exact Hlen].
  unfold Object.end_.
  rewrite (birth_stamp_after_cut r birth death H), Hlen.
  f_equal. lia.
Qed.

Lemma end_after_cut_witness :
  Object.end_ (fst (Object.cut_to_timespan (Object.new (uniform_sample 10 6)) 1 4)) =
    Ok (10 + 4 + 1) /\
  Object.len (fst (Object.cut_to_timespan (Object.new (uniform_sample 10 6)) 1 4)) =
    Ok (4 - 1 + 1).
Proof.
  apply (end_after_cut (uniform_sample 10 6) 1 4). vm_compute. reflexivity.
Defined.

(** A cut to the whole local window [[0, n - 1]] of an object whose series
    all have [n > 0] samples changes nothing and raises nothing. *)
Lemma py_slice_full {A} (l : list A) :
  py_slice l 0 (Z.of_nat (List.length l)) = l.
Proof.
  rewrite py_slice_nonneg by lia. rewrite Nat2Z.id, Nat.sub_0_r.
  apply firstn_all.
Qed.

Lemma cut_series_full {A} (l : list A) (n : nat) :
  List.length l = n -> (0 < n)%nat ->
  cut_series l 0 (Z.of_nat n - 1) = Some l.
Proof.
  intros <- Hn. rewrite cut_series_in_range by lia.
  rewrite Z.sub_add. rewrite py_slice_full. reflexivity.
Qed.

Lemma cut_attr_full (n : nat) (v : pyval) :
  (0 < n)%nat -> Forall (fun m => m = n) (time_lengths v) ->
  Object.cut_attr 0 (Z.of_nat n - 1) v = (v, None).
Proof.
  intros Hn HF.
  destruct v as [s|z|a|l|[vl vr]|[cl cc]]; simpl in HF |- *; try reflexivity.
  - inversion HF as [|? ? H1 _]. rewrite Z.sub_add, <- H1, py_slice_full. reflexivity.
  - inversion HF as [|? ? H1 _]. rewrite Z.sub_add, <- H1, py_slice_full. reflexivity.
  - inversion HF as [|? ? H1 HF']; inversion HF' as [|? ? H2 _].
    unfold ValVar.cut_to_timespan. simpl.
    destruct (Z.leb_spec 0 (Z.of_nat n - 1)); [|lia]. simpl.
    rewrite (cut_series_full vl n H1 Hn), (cut_series_full vr n H2 Hn). reflexivity.
  - inversion HF as [|? ? H1 HF']; inversion HF' as [|? ? H2 _].
    unfold ObjectClassification.cut_to_timespan. simpl.
    destruct (Z.leb_spec 0 (Z.of_nat n - 1)); [|lia]. simpl.
    rewrite (cut_series_full cl n H1 Hn), (cut_series_full cc n H2 Hn). reflexivity.
Qed.

Lemma cut_attrs_full (n : nat) (o : Object.t) :
  (0 < n)%nat ->
  (forall k v, In (k, v) o -> Forall (fun m => m = n) (time_lengths v)) ->
  Object.cut_attrs 0 (Z.of_nat n - 1) o = (o, None).
Proof.
  intros Hn. induction o as [|[k v] o IH]; intros HU; [reflexivity|].
  simpl. rewrite (cut_attr_full n v Hn (HU k v (or_introl eq_refl))).
  rewrite IH by (intros k1 v1 Hin; exact (HU k1 v1 (or_intror Hin))).
  reflexivity.
Qed.


(** ** Store round trips *)

Lemma compress_args_of (cfg : Settings.t) (args : list (string * pyobj)) :
  lookup "hdf5_compress_args" cfg = Some (PyDict args) ->
  SettingsGetter.hdf5_compress_args cfg = ret (PyDict args).
Proof.
  intros H. unfold SettingsGetter.hdf5_compress_args, Settings.getattr.
  rewrite H. reflexivity.
Qed.

Lemma compress_args_missing (cfg : Settings.t) :
  lookup "hdf5_compress_args" cfg = None ->
  SettingsGetter.hdf5_compress_args cfg = raise (AttributeError "hdf5_compress_args").
Proof.
  intros H. unfold SettingsGetter.hdf5_compress_args, Settings.getattr.
  rewrite H. reflexivity.
Qed.

Lemma new_out_of_range (v : list Z) (c : list Q) (x : Q) :
  In x c -> ~ (0 <= x <= 1)%Q ->
  ObjectClassification.new v c = (Err ValidationError, []).
Proof.
  intros Hin Hx. unfold ObjectClassification.new.
  rewrite check_confidence_values_forallb.
  destruct (forallb ObjectClassification.in_unit c) eqn:E; [|reflexivity].
  exfalso. apply Hx, in_unit_spec.
  exact (proj1 (forallb_forall _ _) E x Hin).
Qed.

(** ** [SettingsGetter.set] *)

Lemma set_app_aux (s : Settings.t) (kw1 kw2 : list (string * pyobj)) :
  SettingsGetter.set s (app kw1 kw2) =
  let (s1, e) := SettingsGetter.set s kw1 in
  match e with None => SettingsGetter.set s1 kw2 | Some _ => (s1, e) end.
Proof.
  revert s. induction kw1 as [|[k v] kw1 IH]; intros s; [reflexivity|].
  simpl. destruct v; try (destruct (Settings.setattr s k _); [apply IH|reflexivity]).
  apply IH.
Qed.

Lemma not_in_existsb (k : string) (l : list string) :
  ~ In k l -> existsb (String.eqb k) l = false.
Proof.
  intros Hk. destruct (existsb (String.eqb k) l) eqn:E; [|reflexivity].
  apply existsb_exists in E as [f [Hf Ef]]. apply String.eqb_eq in Ef. subst f.
  contradiction.
Qed.

Lemma setattr_unknown (s : Settings.t) (k : string) (v : pyobj) :
  ~ In k Settings.dunder_attributes -> ~ In k Settings.fields ->
  Settings.setattr s k v = Err (ValueError k).
Proof.
  intros Hd Hk. unfold Settings.setattr. rewrite (not_in_existsb k _ Hd).
  destruct (existsb (String.eqb k) Settings.fields) eqn:E; [|reflexivity].
  apply existsb_exists in E as [f [Hf Ef]]. apply String.eqb_eq in Ef. subst f.
  contradiction.
Qed.

Lemma setattr_keeps_absent (k k1 : string) (s s' : Settings.t) (v : pyobj) :
  ~ In k Settings.dunder_attributes -> ~ In k Settings.fields ->
  lookup k s = None -> Settings.setattr s k1 v = Ok s' -> lookup k s' = None.
Proof.
  intros Hd Hk Hs. unfold Settings.setattr.
  destruct (existsb (String.eqb k1) Settings.dunder_attributes) eqn:E1;
  [|destruct (existsb (String.eqb k1) Settings.fields) eqn:E2; [|discriminate]];
  intros H; injection H as <-; rewrite lookup_dict_set_neq; try exact Hs; intros ->;
  [ apply Hd | apply Hk ];
  match goal with
  | E : existsb _ _ = true |- _ =>
      apply existsb_exists in E as [f [Hf Ef]];
      apply String.eqb_eq in Ef; subst f; exact Hf
  end.
Qed.

Lemma set_keeps_absent (k : string) (s : Settings.t) (kw : list (string * pyobj)) :
  ~ In k Settings.dunder_attributes -> ~ In k Settings.fields -> lookup k s = None ->
  lookup k (fst (SettingsGetter.set s kw)) = None.
Proof.
  intros Hd Hk. revert s. induction kw as [|[k1 v] kw IH]; intros s Hs; [exact Hs|].
  simpl. destruct v; try (apply IH; exact Hs);
  (destruct (Settings.setattr s k1 _) as [s'|e] eqn:E; [|exact Hs];
   apply IH; exact (setattr_keeps_absent k k1 s s' _ Hd Hk Hs E)).
Qed.

(** Cutting an object whose series all have [n > 0] samples to its whole
    local window [[0, n - 1]] leaves it as it was and raises nothing. *)
Theorem cut_full_window_identity (r : Object.fields) (n : nat) :
  (forall k v, In (k, v) (Object.new r) -> Forall (fun m => m = n) (time_lengths v)) ->
  (0 < n)%nat ->
  Object.cut_to_timespan (Object.new r) 0 (Z.of_nat n - 1) = (Object.new r, None).
Proof.
  intros HU Hn.
  pose proof (HU _ _ (in_new_dist_lateral r)) as HL. simpl in HL.
  inversion HL as [|? ? HL1 _].
  rewrite cut_new_unfold, HL1.
  replace ((0 <=? 0) && (0 <=? Z.of_nat n - 1) && (Z.of_nat n - 1 <? Z.of_nat n))
    with true by (symmetry; rewrite !andb_true_iff, !Z.leb_le, Z.ltb_lt; lia).
  rewrite Z.add_0_r, with_birth_stamp_same.
  exact (cut_attrs_full n (Object.new r) Hn HU).
Qed.

Lemma cut_full_window_identity_witness :
  Object.cut_to_timespan (Object.new (uniform_sample 7 4)) 0 (Z.of_nat 4 - 1) =
  (Object.new (uniform_sample 7 4), None).
Proof.
  apply (cut_full_window_identity (uniform_sample 7 4) 4); [|lia].
  intros k v Hin. simpl in Hin.
  repeat (destruct Hin as [Hin|Hin]; [injection Hin as <- <-; simpl; repeat constructor|]).
  destruct Hin.
Defined.



(** ** Store *)

(** An [ObjectClassification] written with [to_hdf5] into a fresh node and
    read back with [from_hdf5]: without validation it comes back exactly,
    whatever its values; with validation the read is the validated
    construction from the stored [val] and [confidence], warnings
    included. *)
Theorem classification_store_roundtrip (cfg : Settings.t) (args : list (string * pyobj))
    (c : ObjectClassification.t) (path : string) (validate : bool) :
  lookup "hdf5_compress_args" cfg = Some (PyDict args) ->
  (g <- ObjectClassification.to_hdf5 cfg c (Store.fresh path) ;;
   ObjectClassification.from_hdf5 g validate) =
  if validate
  then ObjectClassification.new (ObjectClassification.val c)
         (ObjectClassification.confidence c)
  else ret c.
Proof.
  intros Hcfg. pose proof (compress_args_of cfg args Hcfg) as Hargs.
  destruct c as [v cf].
  unfold ObjectClassification.to_hdf5, ObjectClassification.from_hdf5.
  rewrite Hargs.
  destruct validate; cbv -[ObjectClassification.new]; [|reflexivity].
  destruct (ObjectClassification.new v cf). reflexivity.
Qed.

Lemma classification_store_roundtrip_witness :
  (g <- ObjectClassification.to_hdf5 cfg_gzip
          (ObjectClassification.mk [1; 2] [3 # 2; 1 # 2]) (Store.fresh "/c") ;;
   ObjectClassification.from_hdf5 g false) =
  ret (ObjectClassification.mk [1; 2] [3 # 2; 1 # 2]).
Proof.
  apply (classification_store_roundtrip cfg_gzip
           [("compression", PyStr "gzip"); ("compression_opts", PyInt 4)]
           (ObjectClassification.mk [1; 2] [3 # 2; 1 # 2]) "/c" false).
  reflexivity.
Defined.

(** An [Object] whose [birth_stamp] fits in int64, written with [to_hdf5]
    into a fresh node and read back with [from_hdf5(validate=False)], is the
    original object, whatever its classification holds, with [id] replaced
    by the node's own name. *)
Theorem object_roundtrip_unvalidated (cfg : Settings.t) (args : list (string * pyobj))
    (r : Object.fields) (path : string) :
  lookup "hdf5_compress_args" cfg = Some (PyDict args) ->
  - 2 ^ 63 <= Object.birth_stamp r < 2 ^ 63 ->
  fst (g <- Object.to_hdf5 cfg (Object.new r) (Store.fresh path) ;;
       Object.from_hdf5 g false) =
  Ok (Object.new (ObjectFields.with_id r (Store.last_component path))).
Proof.
  intros Hcfg Hbs. pose proof (compress_args_of cfg args Hcfg) as Hargs.
  pose proof (np_int_int64 _ Hbs) as Hnp. write_birth_stamp Hnp.
  destruct r as [id bs [h1 h2] [w1 w2] [he1 he2] [le1 le2] rcs age tp coe mc ms
                 [dlo1 dlo2] [dla1 dla2] [dz1 dz2] [rvlo1 rvlo2] [rvla1 rvla2]
                 [avlo1 avlo2] [avla1 avla2] [ralo1 ralo2] [rala1 rala2]
                 [aalo1 aalo2] [aala1 aala2] [ov oc]].
  unfold Object.write_valvar, Object.write_data,
    ValVar.to_hdf5, ObjectClassification.to_hdf5,
    Object.from_hdf5, ObjectClassification.from_hdf5.
  rewrite Hargs. cbv. reflexivity.
Qed.

Lemma object_roundtrip_unvalidated_witness :
  fst (g <- Object.to_hdf5 cfg_gzip (Object.new (uniform_sample 3 2)) (Store.fresh "/o/RU-1") ;;
       Object.from_hdf5 g false) =
  Ok (Object.new (ObjectFields.with_id (uniform_sample 3 2) (Store.last_component "/o/RU-1"))).
Proof.
  apply (object_roundtrip_unvalidated cfg_gzip
           [("compression", PyStr "gzip"); ("compression_opts", PyInt 4)]
           (uniform_sample 3 2) "/o/RU-1").
  - reflexivity.
  - split; vm_compute; congruence.
Defined.

(** An [Object] whose [birth_stamp] lies in [[2 ^ 63, 2 ^ 64)] is stored
    with a uint64 [birthStamp], and [.astype(int)] reads it back as
    [birth_stamp - 2 ^ 64]: the object read back with
    [from_hdf5(validate=False)] has that [birth_stamp], the node's name as
    [id], and every other field of the original. *)
Theorem object_roundtrip_uint64_wraps (cfg : Settings.t) (args : list (string * pyobj))
    (r : Object.fields) (path : string) :
  lookup "hdf5_compress_args" cfg = Some (PyDict args) ->
  2 ^ 63 <= Object.birth_stamp r < 2 ^ 64 ->
  fst (g <- Object.to_hdf5 cfg (Object.new r) (Store.fresh path) ;;
       Object.from_hdf5 g false) =
  Ok (Object.new (ObjectFields.with_birth_stamp
                    (ObjectFields.with_id r (Store.last_component path))
                    (Object.birth_stamp r - 2 ^ 64))).
Proof.
  intros Hcfg Hbs. pose proof (compress_args_of cfg args Hcfg) as Hargs.
  pose proof (np_int_uint64 _ Hbs) as Hnp.
  pose proof (astype_int_uint64 _ (proj1 Hbs)) as Hcast.
  write_birth_stamp Hnp.
  destruct r as [id bs [h1 h2] [w1 w2] [he1 he2] [le1 le2] rcs age tp coe mc ms
                 [dlo1 dlo2] [dla1 dla2] [dz1 dz2] [rvlo1 rvlo2] [rvla1 rvla2]
                 [avlo1 avlo2] [avla1 avla2] [ralo1 ralo2] [rala1 rala2]
                 [aalo1 aalo2] [aala1 aala2] [ov oc]].
  cbn [Object.birth_stamp] in Hcast.
  unfold Object.write_valvar, Object.write_data,
    ValVar.to_hdf5, ObjectClassification.to_hdf5,
    Object.from_hdf5, ObjectClassification.from_hdf5.
  rewrite Hargs. cbv -[Store.astype_int Z.sub].
  rewrite Hcast. cbv -[Z.sub]. reflexivity.
Qed.

Lemma object_roundtrip_uint64_wraps_witness :
  fst (g <- Object.to_hdf5 cfg_gzip (Object.new (uniform_sample (2 ^ 63 + 5) 2))
              (Store.fresh "/o/RU-1") ;;
       Object.from_hdf5 g false) =
  Ok (Object.new (ObjectFields.with_birth_stamp
                    (ObjectFields.with_id (uniform_sample (2 ^ 63 + 5) 2)
                       (Store.last_component "/o/RU-1"))
                    (Object.birth_stamp (uniform_sample (2 ^ 63 + 5) 2) - 2 ^ 64))).
Proof.
  apply (object_roundtrip_uint64_wraps cfg_gzip
           [("compression", PyStr "gzip"); ("compression_opts", PyInt 4)]
           (uniform_sample (2 ^ 63 + 5) 2) "/o/RU-1").
  - reflexivity.
  - split; vm_compute; congruence.
Defined.

(** An [Object] whose classification holds a confidence outside [[0, 1]]
    (and whose [birth_stamp] has an HDF5 integer type, int64 or uint64) is
    written by [to_hdf5] without complaint, but reading the node back with
    [from_hdf5(validate=True)] raises [ValidationError]. *)
Theorem object_roundtrip_invalid_confidence (cfg : Settings.t)
    (args : list (string * pyobj)) (r : Object.fields) (path : string) (x : Q) :
  lookup "hdf5_compress_args" cfg = Some (PyDict args) ->
  - 2 ^ 63 <= Object.birth_stamp r < 2 ^ 64 ->
  In x (ObjectClassification.confidence (Object.object_classification r)) ->
  ~ (0 <= x <= 1)%Q ->
  (exists g, fst (Object.to_hdf5 cfg (Object.new r) (Store.fresh path)) = Ok g) /\
  fst (g <- Object.to_hdf5 cfg (Object.new r) (Store.fresh path) ;;
       Object.from_hdf5 g true) = Err ValidationError.
Proof.
  intros Hcfg Hbs Hin Hx. pose proof (compress_args_of cfg args Hcfg) as Hargs.
  destruct (np_int_range _ Hbs) as [a Hnp]. write_birth_stamp Hnp.
  destruct r as [id bs h w he le rcs age tp coe mc ms dlo dla dz rvlo rvla
                 avlo avla ralo rala aalo aala [ov oc]].
  simpl in Hin.
  pose proof (new_out_of_range ov oc x Hin Hx) as Hnew.
  unfold Object.write_valvar, Object.write_data,
    ValVar.to_hdf5, ObjectClassification.to_hdf5,
    Object.from_hdf5, ObjectClassification.from_hdf5.
  rewrite Hargs. split.
  - eexists. cbv. reflexivity.
  - cbv -[ObjectClassification.new Store.astype_int]. rewrite Hnew.
    cbv -[Store.astype_int]. reflexivity.
Qed.

Lemma object_roundtrip_invalid_confidence_witness :
  (exists g, fst (Object.to_hdf5 cfg_gzip (Object.new invalid_sample)
                    (Store.fresh "/RU-1")) = Ok g) /\
  fst (g <- Object.to_hdf5 cfg_gzip (Object.new invalid_sample) (Store.fresh "/RU-1") ;;
       Object.from_hdf5 g true) = Err ValidationError.
Proof.
  apply (object_roundtrip_invalid_confidence cfg_gzip
           [("compression", PyStr "gzip"); ("compression_opts", PyInt 4)]
           invalid_sample "/RU-1" (3 # 2)).
  - reflexivity.
  - split; vm_compute; congruence.
  - simpl. tauto.
  - intros [_ H]. apply H. reflexivity.
Defined.

(** [to_hdf5] into a fresh node, for a [birth_stamp] with an HDF5 integer
    type, writes exactly the attribute [birthStamp] (the numpy scalar of
    [birth_stamp]), the six datasets and the sixteen child groups of the
    on-disk layout, under their camelCase names; the datasets in this order
    among themselves, the groups in this order among themselves. *)
Theorem to_hdf5_layout (cfg : Settings.t) (args : list (string * pyobj))
    (r : Object.fields) (path : string) :
  lookup "hdf5_compress_args" cfg = Some (PyDict args) ->
  - 2 ^ 63 <= Object.birth_stamp r < 2 ^ 64 ->
  exists g a,
    Store.np_int (Object.birth_stamp r) = Some a /\
    fst (Object.to_hdf5 cfg (Object.new r) (Store.fresh path)) = Ok g /\
    Store.name g = path /\
    layout g =
    ([("birthStamp", a)],
     ["rcs"; "age"; "trackingPoint"; "confidenceOfExistence";
      "movementClassification"; "measState"],
     ["heading"; "width"; "height"; "length";
      "distLongitudinal"; "distLateral"; "distZ";
      "relVelLongitudinal"; "relVelLateral";
      "absVelLongitudinal"; "absVelLateral";
      "relAccLongitudinal"; "relAccLateral";
      "absAccLongitudinal"; "absAccLateral"; "objectClassification"]).
Proof.
  intros Hcfg Hbs. pose proof (compress_args_of cfg args Hcfg) as Hargs.
  destruct (np_int_range _ Hbs) as [a Hnp].
  write_birth_stamp Hnp. destruct r.
  do 2 eexists. split; [reflexivity|].
  unfold Object.write_valvar, Object.write_data,
    ValVar.to_hdf5, ObjectClassification.to_hdf5.
  rewrite Hargs.
  split; [cbv; reflexivity|].
  split; reflexivity.
Qed.

Lemma to_hdf5_layout_witness :
  exists g a,
    Store.np_int (Object.birth_stamp (uniform_sample (2 ^ 63) 2)) = Some a /\
    fst (Object.to_hdf5 cfg_gzip (Object.new (uniform_sample (2 ^ 63) 2))
           (Store.fresh "/RU-1")) = Ok g /\
    Store.name g = "/RU-1" /\
    layout g =
    ([("birthStamp", a)],
     ["rcs"; "age"; "trackingPoint"; "confidenceOfExistence";
      "movementClassification"; "measState"],
     ["heading"; "width"; "height"; "length";
      "distLongitudinal"; "distLateral"; "distZ";
      "relVelLongitudinal"; "relVelLateral";
      "absVelLongitudinal"; "absVelLateral";
      "relAccLongitudinal"; "relAccLateral";
      "absAccLongitudinal"; "absAccLateral"; "objectClassification"]).
Proof.
  apply (to_hdf5_layout cfg_gzip
           [("compression", PyStr "gzip"); ("compression_opts", PyInt 4)]
           (uniform_sample (2 ^ 63) 2) "/RU-1").
  - reflexivity.
  - split; vm_compute; congruence.
Defined.

(** A node holds one object: writing any object with [to_hdf5] into a node
    that [to_hdf5] already filled raises [ValueError] on [heading], the
    first child group it creates, when both [birth_stamp]s have an HDF5
    integer type (the attribute itself is overwritten without error). *)
Theorem to_hdf5_twice_fails (cfg : Settings.t) (args : list (string * pyobj))
    (r1 r2 : Object.fields) (path : string) :
  lookup "hdf5_compress_args" cfg = Some (PyDict args) ->
  - 2 ^ 63 <= Object.birth_stamp r1 < 2 ^ 64 ->
  - 2 ^ 63 <= Object.birth_stamp r2 < 2 ^ 64 ->
  fst (g <- Object.to_hdf5 cfg (Object.new r1) (Store.fresh path) ;;
       Object.to_hdf5 cfg (Object.new r2) g) = Err (ValueError "heading").
Proof.
  intros Hcfg Hbs1 Hbs2. pose proof (compress_args_of cfg args Hcfg) as Hargs.
  destruct (np_int_range _ Hbs1) as [a1 Hnp1].
  destruct (np_int_range _ Hbs2) as [a2 Hnp2].
  write_birth_stamp Hnp1.
  destruct r1, r2. cbn [Object.birth_stamp] in Hnp2.
  unfold Object.write_valvar, Object.write_data,
    ValVar.to_hdf5, ObjectClassification.to_hdf5.
  rewrite Hargs. cbv -[Store.np_int]. rewrite Hnp2. cbv. reflexivity.
Qed.

Lemma to_hdf5_twice_fails_witness :
  fst (g <- Object.to_hdf5 cfg_gzip (Object.new Object.default) (Store.fresh "/RU-1") ;;
       Object.to_hdf5 cfg_gzip (Object.new (uniform_sample 0 2)) g) =
  Err (ValueError "heading").
Proof.
  apply (to_hdf5_twice_fails cfg_gzip
           [("compression", PyStr "gzip"); ("compression_opts", PyInt 4)]
           Object.default (uniform_sample 0 2) "/RU-1").
  - reflexivity.
  - split; vm_compute; congruence.
  - split; vm_compute; congruence.
Defined.

(** ** Settings *)

(** Starting from [get_settings = SettingsGetter()] (the declared defaults),
    no sequence of [get_settings.set(...)] calls makes
    [hdf5_compress_args] available: [Object.to_hdf5] into a fresh node then
    always raises, [AttributeError] on its first dataset when
    [birth_stamp] has an HDF5 integer type, [TypeError] on the attribute
    write otherwise. *)
Theorem settings_never_supply_compress_args
    (batches : list (list (string * pyobj))) (r : Object.fields) (path : string) :
  let s := fold_left (fun s kw => fst (SettingsGetter.set s kw)) batches Settings.default in
  lookup "hdf5_compress_args" s = None /\
  fst (Object.to_hdf5 s (Object.new r) (Store.fresh path)) =
    match Store.np_int (Object.birth_stamp r) with
    | Some _ => Err (AttributeError "hdf5_compress_args")
    | None => Err TypeError
    end.
Proof.
  intros s.
  assert (Hs : lookup "hdf5_compress_args" s = None).
  { unfold s. assert (Hk : ~ In "hdf5_compress_args" Settings.fields)
      by (simpl; intros [H|[H|[]]]; discriminate).
    assert (Hd : ~ In "hdf5_compress_args" Settings.dunder_attributes)
      by (simpl; intros H; repeat destruct H as [H|H]; try discriminate H; exact H).
    generalize (eq_refl : lookup "hdf5_compress_args" Settings.default = None).
    generalize Settings.default.
    induction batches as [|kw batches IH]; intros s0 H0; [exact H0|].
    simpl. apply IH. exact (set_keeps_absent _ s0 kw Hd Hk H0). }
  split; [exact Hs|].
  pose proof (compress_args_missing s Hs) as Hargs.
  destruct (Store.np_int (Object.birth_stamp r)) as [a|] eqn:Hnp;
    write_birth_stamp Hnp; destruct r;
    unfold Object.write_valvar, Object.write_data,
      ValVar.to_hdf5, ObjectClassification.to_hdf5;
    rewrite ?Hargs; cbv; reflexivity.
Qed.

(** [set] assigns its keyword arguments one after the other: a call with
    [kw1] followed by [kw2] is one call with the first call's arguments,
    then the second call's, unless the first raised. *)
Theorem settings_set_sequential (s : Settings.t) (kw1 kw2 : list (string * pyobj)) :
  SettingsGetter.set s (app kw1 kw2) =
  let (s1, e) := SettingsGetter.set s kw1 in
  match e with None => SettingsGetter.set s1 kw2 | Some _ => (s1, e) end.
Proof. apply set_app_aux. Qed.

(** [set] with a non-null value for a name that is neither a declared field
    nor one of pydantic's [DUNDER_ATTRIBUTES] raises [ValueError] there: the
    assignments before it are kept, the ones after it are not made. *)
Theorem settings_set_stops_at_unknown (s : Settings.t) (kw1 kw2 : list (string * pyobj))
    (k : string) (v : pyobj) :
  ~ In k Settings.dunder_attributes -> ~ In k Settings.fields -> v <> PyNone ->
  snd (SettingsGetter.set s kw1) = None ->
  SettingsGetter.set s (app kw1 ((k, v) :: kw2)) =
  (fst (SettingsGetter.set s kw1), Some (ValueError k)).
Proof.
  intros Hd Hk Hv Hok. rewrite set_app_aux.
  destruct (SettingsGetter.set s kw1) as [s1 e]. simpl in Hok. subst e.
  simpl. destruct v; try (rewrite setattr_unknown by assumption; reflexivity).
  contradiction.
Qed.

Lemma settings_set_stops_at_unknown_witness :
  SettingsGetter.set Settings.default
    (app [("ALLOW_MISSING_TL_GROUPS", PyBool false)]
         [("hdf5_compress_args", PyDict []); ("ALLOW_INCOMPLETE_META_DATA", PyBool false)]) =
  (fst (SettingsGetter.set Settings.default [("ALLOW_MISSING_TL_GROUPS", PyBool false)]),
   Some (ValueError "hdf5_compress_args")).
Proof.
  apply settings_set_stops_at_unknown.
  - simpl. intros H; repeat destruct H as [H|H]; try discriminate H; exact H.
  - simpl. intros [H|[H|[]]]; discriminate.
  - discriminate.
  - reflexivity.
Defined.

(** ** [ObjectClassification.cut_to_timespan] *)

(** Cutting a classification twice is cutting it once: after a successful
    cut to [[b1, d1]], a cut to [[b2, d2]] with
    [0 <= b2 <= d2 <= d1 - b1] equals one cut to [[b1 + b2, b1 + d2]]. *)
Theorem classification_cut_compose (c c1 : ObjectClassification.t) (b1 d1 b2 d2 : Z) :
  ObjectClassification.cut_to_timespan c b1 d1 = (c1, None) ->
  0 <= b2 -> b2 <= d2 -> d2 <= d1 - b1 ->
  ObjectClassification.cut_to_timespan c1 b2 d2 =
  ObjectClassification.cut_to_timespan c (b1 + b2) (b1 + d2).
Proof.
  intros Hc H2 H3 H4. exact (classification_cut_compose_aux c c1 b1 d1 b2 d2 H2 H3 H4 Hc).
Qed.

Lemma classification_cut_compose_witness :
  ObjectClassification.cut_to_timespan (ObjectClassification.mk [2; 3; 4; 5] []) 1 2 =
  ObjectClassification.cut_to_timespan (ObjectClassification.mk [1; 2; 3; 4; 5] []) 2 3.
Proof.
  apply (classification_cut_compose (ObjectClassification.mk [1; 2; 3; 4; 5] [])
           (ObjectClassification.mk [2; 3; 4; 5] []) 1 4 1 2);
    [reflexivity | lia | lia | lia].
Defined.
